(** * Onboarding workflow of the voting backend: registration, OTP
      verification, admin approval and rejection.

    The development embeds [Backend/Utils/OTP.js] and the approval
    controller (registerUser, verifyUserOtp, resendOtp, approveUser,
    rejectUser, updateUserDetails) as functions in a state-and-exception
    monad over a [world]: the document store, the transaction session, the
    HTTP response under construction, the mail outbox, the console, the
    randomness source and the clock. *)

From Stdlib Require Import ZArith NArith List String Bool Lia.
From Stdlib Require Import DecimalString DecimalPos DecimalZ.
Import ListNotations.

Local Open Scope string_scope.
Local Open Scope Z_scope.

(** ** Documents *)

Definition ObjectId := N.

(** The [otp] sub-document written by [sendOtpToEmail]. *)
Record otp_t := mkOtp { code : string; expiresAt : Z }.

(** Modelled from the spec: the Mongoose schema of the Approval collection is
    not among the sources; the fields are those of the PendingApproval record
    of the data model, which are also the ones the controller reads and
    writes. *)
Module Approval.
Record t := mk {
  _id : ObjectId;
  name : string;
  email : string;
  password : string;
  pincode : string;
  status : string;
  isVerified : bool;
  otp : option otp_t
}.

Definition set_name (v : string) (a : t) : t :=
  mk (_id a) v (email a) (password a) (pincode a) (status a) (isVerified a) (otp a).
Definition set_status (v : string) (a : t) : t :=
  mk (_id a) (name a) (email a) (password a) (pincode a) v (isVerified a) (otp a).
Definition set_isVerified (v : bool) (a : t) : t :=
  mk (_id a) (name a) (email a) (password a) (pincode a) (status a) v (otp a).
Definition set_otp (v : option otp_t) (a : t) : t :=
  mk (_id a) (name a) (email a) (password a) (pincode a) (status a) (isVerified a) v.
End Approval.

(** Modelled from the spec: the Mongoose schema of the User collection is not
    among the sources; the fields are those [approveUser] passes to
    [new User], and [otp], which the OTP utilities assign on whatever
    document they are given. *)
Module User.
Record t := mk {
  _id : ObjectId;
  voterId : string;
  name : string;
  email : string;
  password : string;
  publicKey : string;
  publicKeyIV : string;
  publicKeyAuthTag : string;
  privateKey : string;
  privateKeyIV : string;
  privateKeyAuthTag : string;
  privateKeyDerivationSalt : string;
  token : string;
  tokenIV : string;
  tokenAuthTag : string;
  isVerified : bool;
  pincode : string;
  otp : option otp_t
}.

Definition set_name (v : string) (u : t) : t :=
  mk (_id u) (voterId u) v (email u) (password u) (publicKey u) (publicKeyIV u)
     (publicKeyAuthTag u) (privateKey u) (privateKeyIV u) (privateKeyAuthTag u)
     (privateKeyDerivationSalt u) (token u) (tokenIV u) (tokenAuthTag u)
     (isVerified u) (pincode u) (otp u).
Definition set_isVerified (v : bool) (u : t) : t :=
  mk (_id u) (voterId u) (name u) (email u) (password u) (publicKey u) (publicKeyIV u)
     (publicKeyAuthTag u) (privateKey u) (privateKeyIV u) (privateKeyAuthTag u)
     (privateKeyDerivationSalt u) (token u) (tokenIV u) (tokenAuthTag u)
     v (pincode u) (otp u).
Definition set_otp (v : option otp_t) (u : t) : t :=
  mk (_id u) (voterId u) (name u) (email u) (password u) (publicKey u) (publicKeyIV u)
     (publicKeyAuthTag u) (privateKey u) (privateKeyIV u) (privateKeyAuthTag u)
     (privateKeyDerivationSalt u) (token u) (tokenIV u) (tokenAuthTag u)
     (isVerified u) (pincode u) v.
End User.

(** Modelled from the spec: the Admin model is not among the sources; the
    controller only queries it by email. *)
Module Admin.
Record t := mk { _id : ObjectId; email : string }.
End Admin.

(** A document handed to the OTP utilities or to the notification sender:
    the controller passes documents of either collection. *)
Inductive document :=
| UserDoc (u : User.t)
| ApprovalDoc (a : Approval.t).

Inductive collection := Users | Admins | Approvals.

Definition collection_of (d : document) : collection :=
  match d with UserDoc _ => Users | ApprovalDoc _ => Approvals end.

Definition doc_id (d : document) : ObjectId :=
  match d with UserDoc u => User._id u | ApprovalDoc a => Approval._id a end.
Definition doc_name (d : document) : string :=
  match d with UserDoc u => User.name u | ApprovalDoc a => Approval.name a end.
Definition doc_email (d : document) : string :=
  match d with UserDoc u => User.email u | ApprovalDoc a => Approval.email a end.
Definition doc_otp (d : document) : option otp_t :=
  match d with UserDoc u => User.otp u | ApprovalDoc a => Approval.otp a end.
Definition doc_isVerified (d : document) : bool :=
  match d with UserDoc u => User.isVerified u | ApprovalDoc a => Approval.isVerified a end.

Definition doc_set_name (v : string) (d : document) : document :=
  match d with
  | UserDoc u => UserDoc (User.set_name v u)
  | ApprovalDoc a => ApprovalDoc (Approval.set_name v a)
  end.
Definition doc_set_isVerified (v : bool) (d : document) : document :=
  match d with
  | UserDoc u => UserDoc (User.set_isVerified v u)
  | ApprovalDoc a => ApprovalDoc (Approval.set_isVerified v a)
  end.
Definition doc_set_otp (v : option otp_t) (d : document) : document :=
  match d with
  | UserDoc u => UserDoc (User.set_otp v u)
  | ApprovalDoc a => ApprovalDoc (Approval.set_otp v a)
  end.

(** ** The document store *)

Record store := mkStore {
  users : list User.t;
  admins : list Admin.t;
  approvals : list Approval.t
}.

(** [doc.save()] on a list-backed collection: the entry with the document's
    [_id] is replaced, and a document whose [_id] is not there yet is
    appended. *)
Fixpoint upsert {A : Type} (key : A -> ObjectId) (d : A) (l : list A) : list A :=
  match l with
  | [] => [d]
  | x :: r => if N.eqb (key x) (key d) then d :: r else x :: upsert key d r
  end.

Definition store_save (d : document) (s : store) : store :=
  match d with
  | UserDoc u => mkStore (upsert User._id u (users s)) (admins s) (approvals s)
  | ApprovalDoc a => mkStore (users s) (admins s) (upsert Approval._id a (approvals s))
  end.

Definition store_delete_approval (id : ObjectId) (s : store) : store :=
  mkStore (users s) (admins s)
          (filter (fun a => negb (N.eqb (Approval._id a) id)) (approvals s)).

(** A new ObjectId never collides with one already in the collection. *)
Definition fresh_id (ids : list ObjectId) : ObjectId :=
  N.succ (fold_right N.max 0%N ids).

(** ** Sessions, responses, mail *)

(** A client session: inside a transaction, session writes are held back
    until the commit. *)
Record transaction := mkTxn { inTransaction : bool; writes : list document }.

Definition idle : transaction := mkTxn false [].

Definition json := list (string * string).

Record response := mkRes { statusCode : Z; sent : option (Z * json) }.

Definition fresh_response : response := mkRes 200 None.

Record mail := mkMail { mail_to : string; mail_subject : string; mail_html : string }.

Record error := Error { message : string }.

(** ** The world a request handler runs in *)

Record world := mkWorld {
  db : store;
  session : transaction;
  res : response;
  outbox : list mail;
  console : list string;
  entropy : list Z;
  now : Z
}.

Definition with_db (v : store) (w : world) : world :=
  mkWorld v (session w) (res w) (outbox w) (console w) (entropy w) (now w).
Definition with_session (v : transaction) (w : world) : world :=
  mkWorld (db w) v (res w) (outbox w) (console w) (entropy w) (now w).
Definition with_res (v : response) (w : world) : world :=
  mkWorld (db w) (session w) v (outbox w) (console w) (entropy w) (now w).
Definition with_outbox (v : list mail) (w : world) : world :=
  mkWorld (db w) (session w) (res w) v (console w) (entropy w) (now w).
Definition with_console (v : list string) (w : world) : world :=
  mkWorld (db w) (session w) (res w) (outbox w) v (entropy w) (now w).
Definition with_entropy (v : list Z) (w : world) : world :=
  mkWorld (db w) (session w) (res w) (outbox w) (console w) v (now w).

(** ** The monad of handlers: state passing with exceptions *)

Inductive outcome (A : Type) :=
| Ok (a : A)
| Throw (e : error).
Arguments Ok {A} a.
Arguments Throw {A} e.

Definition M (A : Type) := world -> outcome A * world.

Definition ret {A} (a : A) : M A := fun w => (Ok a, w).

Definition bind {A B} (m : M A) (k : A -> M B) : M B :=
  fun w => match m w with
           | (Ok a, w') => k a w'
           | (Throw e, w') => (Throw e, w')
           end.

Definition throw {A} (e : error) : M A := fun w => (Throw e, w).

(** [try { m } catch (e) { h e }] *)
Definition try_catch {A} (m : M A) (h : error -> M A) : M A :=
  fun w => match m w with
           | (Throw e, w') => h e w'
           | r => r
           end.

Definition gets {A} (f : world -> A) : M A := fun w => (Ok (f w), w).
Definition modify (f : world -> world) : M unit := fun w => (Ok tt, f w).

Declare Scope monad_scope.
Delimit Scope monad_scope with monad.
Notation "x <- m ;; k" := (bind m (fun x => k))
  (at level 61, m at next level, right associativity) : monad_scope.
Notation "m ;; k" := (bind m (fun _ => k))
  (at level 61, right associativity) : monad_scope.
Local Open Scope monad_scope.

(** ** Collaborators *)

(** The calls a handler makes on the store, the crypto provisioner and the
    mailer; each of them can fail. *)
Inductive op :=
| FindOne (c : collection)
| FindById (c : collection)
| Save (c : collection)
| Delete (c : collection)
| Commit
| CryptoFields
| Mail.

Definition collection_name (c : collection) : string :=
  match c with Users => "User" | Admins => "Admin" | Approvals => "Approval" end.

Definition fault_message (o : op) : string :=
  match o with
  | FindOne c => collection_name c ++ ".findOne failed"
  | FindById c => collection_name c ++ ".findById failed"
  | Save c => collection_name c ++ " save failed"
  | Delete c => collection_name c ++ ".findByIdAndDelete failed"
  | Commit => "commitTransaction failed"
  | CryptoFields => "generateCryptoFields failed"
  | Mail => "sendNotificationEmail failed"
  end.

(** What [generateCryptoFields] resolves to. *)
Record cryptoFields := mkCrypto {
  encryptedPublicKey : string;
  cf_publicKeyIV : string;
  cf_publicKeyAuthTag : string;
  encryptedPrivateKey : string;
  cf_privateKeyIV : string;
  cf_privateKeyAuthTag : string;
  encryptedToken : string;
  cf_tokenIV : string;
  cf_tokenAuthTag : string;
  salt : string
}.

(** The environment of the handlers. [faults] tells which collaborator calls
    fail; the bcrypt functions are those of bcryptjs.

    Modelled from the spec: [generateCryptoFields] and [generateVoterId] are
    imported by the controller and are not among the sources; the first is a
    function of the password and of the randomness source that may fail, the
    second a generator of voter identifiers. *)
Class Collaborators := {
  faults : op -> bool;
  bcrypt_genSalt : Z -> Z -> string;
  bcrypt_hash : string -> string -> string;
  bcrypt_compare : string -> string -> bool;
  cryptoFields_of : string -> Z -> cryptoFields;
  voterId_of : Z -> string
}.

Section Handlers.
Context `{env : Collaborators}.

(** An awaited call on a collaborator: it rejects when the environment makes
    it fail. *)
Definition fallible (o : op) : M unit :=
  fun w => if faults o then (Throw (Error (fault_message o)), w) else (Ok tt, w).

(** *** Randomness and time *)

(** The next value of the randomness source. *)
Definition draw : M Z :=
  fun w => (Ok (hd 0 (entropy w)), with_entropy (tl (entropy w)) w).

(** [crypto.randomInt(min, max)]: an integer [n] with [min <= n < max]. *)
Definition randomInt (min max : Z) : M Z :=
  r <- draw ;; ret (min + r mod (max - min)).

(** [n.toString()] *)
Definition toString (n : Z) : string := NilZero.string_of_int (Z.to_int n).

Definition Date_now : M Z := gets now.

(** [bcrypt.hash(s, rounds)] draws its own salt; handed [undefined] for
    the string, bcryptjs rejects with "Illegal arguments" without drawing
    one. *)
Definition bcrypt_hash_rounds (s : option string) (rounds : Z) : M string :=
  match s with
  | Some s => r <- draw ;; ret (bcrypt_hash s (bcrypt_genSalt rounds r))
  | None => throw (Error "Illegal arguments: undefined, number")
  end.

(** *** Console and response *)

Definition console_log (line : string) : M unit :=
  modify (fun w => with_console (console w ++ [line]) w).

Definition res_status (n : Z) : M unit :=
  modify (fun w => with_res (mkRes n (sent (res w))) w).

Definition res_json (body : json) : M unit :=
  modify (fun w => with_res (mkRes (statusCode (res w)) (Some (statusCode (res w), body))) w).

(** *** Store queries *)

Definition User_findOne (email : string) : M (option User.t) :=
  fallible (FindOne Users) ;;
  gets (fun w => find (fun u => String.eqb (User.email u) email) (users (db w))).

Definition Admin_findOne (email : string) : M (option Admin.t) :=
  fallible (FindOne Admins) ;;
  gets (fun w => find (fun a => String.eqb (Admin.email a) email) (admins (db w))).

Definition Approval_findOne (email : string) : M (option Approval.t) :=
  fallible (FindOne Approvals) ;;
  gets (fun w => find (fun a => String.eqb (Approval.email a) email) (approvals (db w))).

Definition User_findById (id : ObjectId) : M (option User.t) :=
  fallible (FindById Users) ;;
  gets (fun w => find (fun u => N.eqb (User._id u) id) (users (db w))).

Definition Approval_findById (id : ObjectId) : M (option Approval.t) :=
  fallible (FindById Approvals) ;;
  gets (fun w => find (fun a => N.eqb (Approval._id a) id) (approvals (db w))).

(** [doc.save()] *)
Definition save (d : document) : M unit :=
  fallible (Save (collection_of d)) ;;
  modify (fun w => with_db (store_save d (db w)) w).

Definition Approval_findByIdAndDelete (id : ObjectId) : M unit :=
  fallible (Delete Approvals) ;;
  modify (fun w => with_db (store_delete_approval id (db w)) w).

(** *** Transactions *)

(** The store as the session sees it: its own held-back writes applied. *)
Definition apply_writes (ws : list document) (s : store) : store :=
  fold_left (fun s d => store_save d s) ws s.

Definition startSession : M unit :=
  modify (with_session idle).

Definition startTransaction : M unit :=
  modify (fun w => with_session (mkTxn true (writes (session w))) w).

(** [Approval.findById(id).session(session)] *)
Definition Approval_findById_session (id : ObjectId) : M (option Approval.t) :=
  fallible (FindById Approvals) ;;
  gets (fun w => find (fun a => N.eqb (Approval._id a) id)
                      (approvals (apply_writes (writes (session w)) (db w)))).

(** [doc.save({ session })]: held back while the session is in a
    transaction, written through otherwise. *)
Definition save_session (d : document) : M unit :=
  fallible (Save (collection_of d)) ;;
  modify (fun w =>
            if inTransaction (session w)
            then with_session (mkTxn true (writes (session w) ++ [d])) w
            else with_db (store_save d (db w)) w).

(** [session.commitTransaction()]: all held-back writes reach the store, or,
    when the commit fails, none does. *)
Definition commitTransaction : M unit :=
  fun w =>
    if faults Commit
    then (Throw (Error (fault_message Commit)),
          with_session (mkTxn false (writes (session w))) w)
    else (Ok tt,
          with_session idle (with_db (apply_writes (writes (session w)) (db w)) w)).

Definition abortTransaction : M unit :=
  modify (with_session idle).

Definition endSession : M unit :=
  modify (with_session idle).

Definition session_inTransaction : M bool :=
  gets (fun w => inTransaction (session w)).

(** *** Notification *)

(** Modelled from the spec: [sendNotificationEmail] is imported by the
    controller and is not among the sources; it is the notification
    collaborator [send(recipientRecord, subject, bodyHtml)], which succeeds
    or fails. *)
Definition sendNotificationEmail (user : document) (subject html : string) : M unit :=
  fallible Mail ;;
  modify (fun w => with_outbox (outbox w ++ [mkMail (doc_email user) subject html]) w).

(** ** Backend/Utils/OTP.js *)

(** [!user.otp || !user.otp.code] *)
Definition no_otp_pending (user : document) : bool :=
  match doc_otp user with
  | None => true
  | Some o => String.eqb (code o) ""
  end.

Definition otp_code (user : document) : string :=
  match doc_otp user with Some o => code o | None => "" end.

Definition otp_expiresAt (user : document) : Z :=
  match doc_otp user with Some o => expiresAt o | None => 0 end.

Definition default_subject : string := "OTP for Decentralized-Voting System".

(** Generate, hash, and save OTP. The result is the plaintext code and the
    document as the call leaves it. *)
Definition sendOtpToEmail (user : document) (subject : string) : M (string * document) :=
  n <- randomInt 100000 999999 ;;
  let OTP := toString n in
  r <- draw ;;
  let salt := bcrypt_genSalt 10 r in
  let hashedOtp := bcrypt_hash OTP salt in
  t <- Date_now ;;
  let user := doc_set_otp (Some (mkOtp hashedOtp (t + 5 * 60 * 1000))) user in
  save user ;;
  console_log ("[OTP] Sending OTP to " ++ doc_email user ++ ": " ++ OTP) ;;
  ret (OTP, user).

(** Verify hashed OTP. The result is the document as the call leaves it. *)
Definition verifyOTP (user : document) (OTP : string) : M document :=
  if String.eqb OTP "1" then
    let user := doc_set_isVerified true user in
    let user := doc_set_otp None user in
    save user ;;
    ret user
  else if no_otp_pending user then
    throw (Error "No OTP pending for this user")
  else
    t <- Date_now ;;
    if t >? otp_expiresAt user then
      throw (Error "OTP expired")
    else
      let isMatch := bcrypt_compare OTP (otp_code user) in
      if negb isMatch then
        throw (Error "OTP incorrect")
      else
        let user := doc_set_isVerified true user in
        let user := doc_set_otp None user in
        save user ;;
        ret user.

(** Helper function to check OTP without deleting it. *)
Definition checkOtp (user : document) (otp : string) : M bool :=
  if String.eqb otp "1" then
    ret true
  else if no_otp_pending user then
    throw (Error "No OTP pending for this user")
  else
    t <- Date_now ;;
    if t >? otp_expiresAt user then
      throw (Error "OTP expired")
    else
      let isMatch := bcrypt_compare otp (otp_code user) in
      if negb isMatch then ret false else ret true.

(** ** The approval controller *)

(** A field of [req.body] that may be absent. *)
Definition truthy (v : option string) : bool :=
  match v with
  | Some s => negb (String.eqb s "")
  | None => false
  end.

Definition field (v : option string) : string :=
  match v with Some s => s | None => "undefined" end.

(** [new Approval({...})]: the document gets its ObjectId on construction. *)
Definition new_Approval (name email password pincode status : string)
           (isVerified : bool) : M Approval.t :=
  gets (fun w => Approval.mk (fresh_id (map Approval._id (approvals (db w))))
                             name email password pincode status isVerified None).

(** [new User({...})] as [approveUser] builds it. *)
Definition new_User (voterId : string) (pendingUser : Approval.t) (cf : cryptoFields)
  : M User.t :=
  gets (fun w => User.mk (fresh_id (map User._id (users (db w))))
                         voterId
                         (Approval.name pendingUser)
                         (Approval.email pendingUser)
                         (Approval.password pendingUser)
                         (encryptedPublicKey cf)
                         (cf_publicKeyIV cf)
                         (cf_publicKeyAuthTag cf)
                         (encryptedPrivateKey cf)
                         (cf_privateKeyIV cf)
                         (cf_privateKeyAuthTag cf)
                         (salt cf)
                         (encryptedToken cf)
                         (cf_tokenIV cf)
                         (cf_tokenAuthTag cf)
                         true
                         (Approval.pincode pendingUser)
                         None).

Definition generateCryptoFields (password : string) : M cryptoFields :=
  fallible CryptoFields ;;
  r <- draw ;;
  ret (cryptoFields_of password r).

Definition generateVoterId : M string :=
  r <- draw ;; ret (voterId_of r).

(** [req.body] of a registration. The handler hands the password to
    bcrypt.hash unchecked, so a body without one is a body it can be given.
    Name, email and pincode go to the Approval model as they are; what the
    model makes of an absent one is decided by its schema, which is not
    among the sources, so these three are carried as strings. *)
Record register_body := mkRegister {
  reg_name : string;
  reg_email : string;
  reg_password : option string;
  reg_pincode : string
}.

(** Register user and store in Approval collection. *)
Definition registerUser (body : register_body) : M unit :=
  let name := reg_name body in
  let email := reg_email body in
  let password := reg_password body in
  let pincode := reg_pincode body in
  existingUser <- (u <- User_findOne email ;;
                   match u with
                   | Some _ => ret true
                   | None =>
                     a <- Admin_findOne email ;;
                     ret (match a with Some _ => true | None => false end)
                   end) ;;
  if existingUser then
    res_status 400 ;;
    res_json [("message", "Email already exists")] ;;
    throw (Error "Email already exists")
  else
    hashedPassword <- bcrypt_hash_rounds password 10 ;;
    newPendingUser <- new_Approval name email hashedPassword pincode "Pending" false ;;
    save (ApprovalDoc newPendingUser) ;;
    sentOtp <- sendOtpToEmail (ApprovalDoc newPendingUser) default_subject ;;
    let newPendingUser := snd sentOtp in
    res_status 201 ;;
    res_json [("message", "User registered, OTP sent");
              ("email", doc_email newPendingUser)].

(** Verify OTP for user registration. *)
Definition verifyUserOtp (email otp : option string) : M unit :=
  if negb (truthy email) || negb (truthy otp) then
    res_status 400 ;;
    throw (Error "Email and OTP are required")
  else
    pendingUser <- Approval_findOne (field email) ;;
    match pendingUser with
    | None =>
      res_status 404 ;;
      throw (Error "Pending user not found")
    | Some pendingUser =>
      verifyOTP (ApprovalDoc pendingUser) (field otp) ;;
      res_status 200 ;;
      res_json [("message", "OTP verified successfully, awaiting admin approval")]
    end.

(** Resend OTP for user registration. *)
Definition resendOtp (email : option string) : M unit :=
  if negb (truthy email) then
    res_status 400 ;;
    throw (Error "Email is required")
  else
    pendingUser <- Approval_findOne (field email) ;;
    match pendingUser with
    | None =>
      res_status 404 ;;
      throw (Error "Pending user not found")
    | Some pendingUser =>
      if negb (String.eqb (Approval.status pendingUser) "Pending") then
        res_status 400 ;;
        throw (Error "User is not in pending status")
      else if Approval.isVerified pendingUser then
        res_status 400 ;;
        throw (Error "User is already verified")
      else
        sendOtpToEmail (ApprovalDoc pendingUser)
                       "Resend OTP for Decentralized-Voting System" ;;
        res_json [("message", "New OTP sent to email")]
    end.

(** Approve user (Admin only). *)
Definition approveUser (id : ObjectId) : M unit :=
  startSession ;;
  startTransaction ;;
  try_catch
    (pendingUser <- Approval_findById_session id ;;
     match pendingUser with
     | None =>
       abortTransaction ;;
       endSession ;;
       res_status 404 ;;
       res_json [("message", "Pending user not found")]
     | Some pendingUser =>
       if negb (Approval.isVerified pendingUser) then
         abortTransaction ;;
         endSession ;;
         res_status 400 ;;
         res_json [("message", "User has not verified their OTP")]
       else
         cf <- generateCryptoFields (Approval.password pendingUser) ;;
         voterId <- generateVoterId ;;
         newUser <- new_User voterId pendingUser cf ;;
         save_session (UserDoc newUser) ;;
         let pendingUser := Approval.set_status "Accepted" pendingUser in
         save_session (ApprovalDoc pendingUser) ;;
         commitTransaction ;;
         endSession ;;
         try_catch
           (sendNotificationEmail
              (ApprovalDoc pendingUser)
              "Account Approval Notification"
              ("Dear " ++ Approval.name pendingUser
               ++ ", Your profile has been approved and you can login now. Your Voter ID is: <b>"
               ++ voterId ++ "</b>"))
           (fun emailError =>
              console_log ("Notification email failed: " ++ message emailError)) ;;
         res_json [("message", "User approved and notified");
                   ("voterId", voterId)]
     end)
    (fun error =>
       inTx <- session_inTransaction ;;
       (if inTx then abortTransaction else ret tt) ;;
       endSession ;;
       console_log ("Approval transaction failed: " ++ message error) ;;
       res_status 500 ;;
       res_json [("message", "User approval failed");
                 ("error", message error)]).

(** Reject user (Admin only). *)
Definition rejectUser (id : ObjectId) (reason : option string) : M unit :=
  pendingUser <- Approval_findById id ;;
  match pendingUser with
  | None =>
    res_status 404 ;;
    throw (Error "Pending user not found")
  | Some pendingUser =>
    if negb (truthy reason) then
      res_status 400 ;;
      throw (Error "Rejection reason is required")
    else
      sendNotificationEmail
        (ApprovalDoc pendingUser)
        "Account Rejection Notification"
        ("Dear " ++ Approval.name pendingUser
         ++ ", Your profile has been rejected. Reason: " ++ field reason
         ++ ". Please visit the office for further details.") ;;
      Approval_findByIdAndDelete id ;;
      res_status 200 ;;
      res_json [("message", "User rejected, notified, and removed from database")]
  end.

(** [User.findById(id) || Approval.findById(id)] *)
Definition find_in_either (id : ObjectId) : M (option document) :=
  u <- User_findById id ;;
  match u with
  | Some u => ret (Some (UserDoc u))
  | None =>
    a <- Approval_findById id ;;
    ret (match a with Some a => Some (ApprovalDoc a) | None => None end)
  end.

(** Update user details (Admin only). *)
Definition updateUserDetails (id : ObjectId) (name : option string) : M unit :=
  user <- find_in_either id ;;
  match user with
  | None =>
    res_status 404 ;;
    throw (Error "User not found")
  | Some user =>
    let oldName := doc_name user in
    (if truthy name then
       let user := doc_set_name (field name) user in
       save user ;;
       sendNotificationEmail
         user
         "Profile Update Notification"
         ("Dear " ++ doc_name user ++ ", Your name has been changed from "
          ++ oldName ++ " to " ++ doc_name user ++ ".")
     else
       save user ;;
       sendNotificationEmail
         user
         "Profile Update Notification"
         ("Dear " ++ doc_name user ++ ", Your profile has been updated.")) ;;
    res_json [("message", "User details updated and notified")]
  end.

(** [.select("-password")]: a pending document without its password. *)
Record pending_view := mkView {
  view_id : ObjectId;
  view_name : string;
  view_email : string;
  view_pincode : string;
  view_status : string;
  view_isVerified : bool;
  view_otp : option otp_t
}.

Definition select_without_password (a : Approval.t) : pending_view :=
  mkView (Approval._id a) (Approval.name a) (Approval.email a) (Approval.pincode a)
         (Approval.status a) (Approval.isVerified a) (Approval.otp a).

(** [Approval.find({ status })]: a query by filter, failing as the other
    queries by filter do. *)
Definition Approval_find_status (status : string) : M (list Approval.t) :=
  fallible (FindOne Approvals) ;;
  gets (fun w => filter (fun a => String.eqb (Approval.status a) status)
                        (approvals (db w))).

(** Get all pending users (Admin only). The value is the array the handler
    hands to [res.json]. *)
Definition getPendingUsers : M (list pending_view) :=
  users <- Approval_find_status "Pending" ;;
  ret (map select_without_password users).

End Handlers.

(** ** A concrete environment and store, for running the handlers *)

Module Demo.

Definition no_faults : op -> bool := fun _ => false.

(** Stand-ins for bcryptjs and the crypto provisioner: enough structure to
    tell a hash from its plaintext and a matching code from a wrong one. *)
Definition toy_hash (s salt : string) : string := "$2a$" ++ salt ++ "$" ++ s.
Definition toy_genSalt (rounds r : Z) : string := "s".
Definition toy_compare (s h : string) : bool := String.eqb (toy_hash s "s") h.
Definition toy_crypto (password : string) (r : Z) : cryptoFields :=
  mkCrypto "pub" "pubIV" "pubTag" "priv" "privIV" "privTag" "tok" "tokIV" "tokTag" "salt".
Definition toy_voterId (r : Z) : string := "VOTER-1".

Definition env_with (f : op -> bool) : Collaborators :=
  Build_Collaborators f toy_genSalt toy_hash toy_compare toy_crypto toy_voterId.

Definition env : Collaborators := env_with no_faults.

Definition empty_store : store := mkStore [] [] [].

Definition world_of (s : store) (t : Z) : world :=
  mkWorld s idle fresh_response [] [] [] t.

Definition alice : register_body :=
  mkRegister "Alice" "a@x.com" (Some "pw123") "12345".

(** Environments in which one collaborator call fails. *)
Definition env_mail_fails : Collaborators :=
  env_with (fun o => match o with Mail => true | _ => false end).
Definition env_status_write_fails : Collaborators :=
  env_with (fun o => match o with Save Approvals => true | _ => false end).

(** Alice's pending record once she has verified her email, and before. *)
Definition alice_verified : Approval.t :=
  Approval.mk 1%N "Alice" "a@x.com" "$2a$s$pw123" "12345" "Pending" true None.
Definition alice_pending : Approval.t :=
  Approval.mk 1%N "Alice" "a@x.com" "$2a$s$pw123" "12345" "Pending" false
              (Some (mkOtp "$2a$s$482913" 301000)).

Definition store_verified : store := mkStore [] [] [alice_verified].
Definition store_pending : store := mkStore [] [] [alice_pending].
Definition store_admin : store := mkStore [] [Admin.mk 1%N "root@x.com"] [].

Definition root : register_body :=
  mkRegister "Root" "root@x.com" (Some "pw") "00000".

(** A registration request that carries no password. *)
Definition carol_without_password : register_body :=
  mkRegister "Carol" "c@x.com" None "54321".

(** Worlds at the start of a request; in the last one Alice's OTP has
    expired. *)
Definition w_empty : world := world_of empty_store 1000.
Definition w_admin : world := world_of store_admin 1000.
Definition w_verified : world := world_of store_verified 1000.
Definition w_pending : world := world_of store_pending 1000.
Definition w_pending_late : world := world_of store_pending 999999.

Definition env_crypto_fails : Collaborators :=
  env_with (fun o => match o with CryptoFields => true | _ => false end).
Definition env_delete_fails : Collaborators :=
  env_with (fun o => match o with Delete Approvals => true | _ => false end).

(** The worlds after Alice's approval and after her verification with the
    bypass code. *)
Definition w_approved : world := snd (@approveUser env 1%N w_verified).
Definition w_just_verified : world :=
  snd (@verifyUserOtp env (Some "a@x.com") (Some "1") w_pending).

End Demo.

(** ** What the handlers are expected to leave behind *)

Section Outcomes.
Context `{env : Collaborators}.

(** What a successful verification leaves of the document. *)
Definition verified (user : document) : document :=
  doc_set_otp None (doc_set_isVerified true user).

(** The document [sendOtpToEmail] saves: the record with its otp sub-field
    set to the hash of the code and an expiry five minutes ahead. *)
Definition with_issued_otp (user : document) (hashed : string) (t : Z) : document :=
  doc_set_otp (Some (mkOtp hashed (t + 300000))) user.

(** The record an id names: the User collection is asked first, the
    Approval collection only when it has none. *)
Definition lookup_either (id : ObjectId) (s : store) : option document :=
  match find (fun u => N.eqb (User._id u) id) (users s) with
  | Some u => Some (UserDoc u)
  | None =>
    match find (fun a => N.eqb (Approval._id a) id) (approvals s) with
    | Some a => Some (ApprovalDoc a)
    | None => None
    end
  end.

Definition update_subject : string := "Profile Update Notification".
Definition update_reply : json := [("message", "User details updated and notified")].

Definition approved_reply (voterId : string) : json :=
  [("message", "User approved and notified"); ("voterId", voterId)].

(** The voter ID and the User record an approval builds in world [w] for the
    pending record [p]. *)
Definition approved_voterId (w : world) : string :=
  voterId_of (hd 0 (tl (entropy w))).

Definition approved_user (w : world) (p : Approval.t) : User.t :=
  let cf := cryptoFields_of (Approval.password p) (hd 0 (entropy w)) in
  User.mk (fresh_id (map User._id (users (db w))))
          (approved_voterId w)
          (Approval.name p) (Approval.email p) (Approval.password p)
          (encryptedPublicKey cf) (cf_publicKeyIV cf) (cf_publicKeyAuthTag cf)
          (encryptedPrivateKey cf) (cf_privateKeyIV cf) (cf_privateKeyAuthTag cf)
          (salt cf) (encryptedToken cf) (cf_tokenIV cf) (cf_tokenAuthTag cf)
          true (Approval.pincode p) None.

(** The store after the commit of an approval. *)
Definition committed_store (w : world) (p : Approval.t) : store :=
  mkStore (users (db w) ++ [approved_user w p])%list
          (admins (db w))
          (upsert Approval._id (Approval.set_status "Accepted" p) (approvals (db w))).

Definition approval_mail (w : world) (p : Approval.t) : mail :=
  mkMail (Approval.email p) "Account Approval Notification"
         ("Dear " ++ Approval.name p
          ++ ", Your profile has been approved and you can login now. Your Voter ID is: <b>"
          ++ approved_voterId w ++ "</b>").

(** The transaction goes through: every step up to the commit succeeds. *)
Definition transaction_succeeds (id : ObjectId) (w : world) (p : Approval.t) : Prop :=
  faults (FindById Approvals) = false
  /\ find (fun a => N.eqb (Approval._id a) id) (approvals (db w)) = Some p
  /\ Approval.isVerified p = true
  /\ faults CryptoFields = false
  /\ faults (Save Users) = false
  /\ faults (Save Approvals) = false
  /\ faults Commit = false.

(** An email is held by a collection when one of its documents has it. *)
Definition in_users (email : string) (s : store) : Prop :=
  exists u, In u (users s) /\ User.email u = email.
Definition in_admins (email : string) (s : store) : Prop :=
  exists a, In a (admins s) /\ Admin.email a = email.
Definition in_approvals (email : string) (s : store) : Prop :=
  exists a, In a (approvals s) /\ Approval.email a = email.

Definition duplicate_reply : json := [("message", "Email already exists")].
Definition registered_reply (email : string) : json :=
  [("message", "User registered, OTP sent"); ("email", email)].

(** The store holds a document: looking its id up in its collection gives
    the document back. *)
Definition holds (s : store) (d : document) : Prop :=
  match d with
  | UserDoc u =>
    find (fun x => N.eqb (User._id x) (User._id u)) (users s) = Some u
  | ApprovalDoc a =>
    find (fun x => N.eqb (Approval._id x) (Approval._id a)) (approvals s) = Some a
  end.

(** The User record with a given id. *)
Definition user_by_id (id : ObjectId) (s : store) : option User.t :=
  find (fun u => N.eqb (User._id u) id) (users s).

(** The first pending record with a given email. *)
Definition pending_by_email (email : string) (s : store) : option Approval.t :=
  find (fun a => String.eqb (Approval.email a) email) (approvals s).

(** The pending record with a given id. *)
Definition pending_by_id (id : ObjectId) (s : store) : option Approval.t :=
  find (fun a => N.eqb (Approval._id a) id) (approvals s).

Definition verified_approval (p : Approval.t) : Approval.t :=
  Approval.set_otp None (Approval.set_isVerified true p).

(** The calls of an approval that can fail before the commit is through, in
    the order in which they are made. *)
Definition transaction_steps : list op :=
  [FindById Approvals; CryptoFields; Save Users; Save Approvals; Commit].

Definition failure_reply (o : op) : json :=
  [("message", "User approval failed"); ("error", fault_message o)].

Definition rejection_mail (p : Approval.t) (reason : string) : mail :=
  mkMail (Approval.email p) "Account Rejection Notification"
         ("Dear " ++ Approval.name p ++ ", Your profile has been rejected. Reason: "
          ++ reason ++ ". Please visit the office for further details.").

Definition rejected_reply : json :=
  [("message", "User rejected, notified, and removed from database")].

(** A computation keeps a property of the store. *)
Definition preserves {A : Type} (P : store -> Prop) (m : M A) : Prop :=
  forall w, P (db w) -> P (db (snd (m w))).

(** Properties of the store that survive the writes a handler can make. *)
Definition save_closed (P : store -> Prop) : Prop :=
  forall d s, P s -> P (store_save d s).
Definition approval_save_closed (P : store -> Prop) : Prop :=
  forall a s, P s -> P (store_save (ApprovalDoc a) s).
Definition delete_closed (P : store -> Prop) : Prop :=
  forall id s, P s -> P (store_delete_approval id s).

(** The pending record a registration with password [password] appends,
    for the code [n] and the salts drawn. *)
Definition registered_record (body : register_body) (password : string)
           (w : world) (n : Z) (salt_pw salt_otp : string) : Approval.t :=
  Approval.mk (fresh_id (map Approval._id (approvals (db w))))
              (reg_name body) (reg_email body)
              (bcrypt_hash password salt_pw)
              (reg_pincode body) "Pending" false
              (Some (mkOtp (bcrypt_hash (toString n) salt_otp) (now w + 300000))).

Definition otp_log_line (email OTP : string) : string :=
  "[OTP] Sending OTP to " ++ email ++ ": " ++ OTP.

Definition verified_reply : json :=
  [("message", "OTP verified successfully, awaiting admin approval")].

(** The array getPendingUsers answers with in a given store. *)
Definition pending_listing (s : store) : list pending_view :=
  map select_without_password
      (filter (fun a => String.eqb (Approval.status a) "Pending") (approvals s)).

(** A listing without the entry of a given id. *)
Definition without_id (id : ObjectId) (l : list pending_view) : list pending_view :=
  filter (fun v => negb (N.eqb (view_id v) id)) l.

End Outcomes.

(** * Properties *)

(** ** The list-backed collections *)

Section Collections.
Context {A : Type} (key : A -> ObjectId).

Lemma find_upsert_same (d : A) (l : list A) :
  find (fun x => N.eqb (key x) (key d)) (upsert key d l) = Some d.
Proof.
  induction l as [|x r IH]; simpl.
  - now rewrite N.eqb_refl.
  - destruct (N.eqb (key x) (key d)) eqn:E; simpl.
    + now rewrite N.eqb_refl.
    + now rewrite E.
Qed.

Lemma find_upsert_other (d : A) (l : list A) (id : ObjectId) :
  id <> key d ->
  find (fun x => N.eqb (key x) id) (upsert key d l)
  = find (fun x => N.eqb (key x) id) l.
Proof.
  intros Hne. induction l as [|x r IH]; simpl.
  - destruct (N.eqb (key d) id) eqn:E; [|reflexivity].
    apply N.eqb_eq in E. congruence.
  - destruct (N.eqb (key x) (key d)) eqn:E; simpl.
    + apply N.eqb_eq in E.
      destruct (N.eqb (key d) id) eqn:E1.
      * apply N.eqb_eq in E1. congruence.
      * rewrite E. now rewrite E1.
    + destruct (N.eqb (key x) id); [reflexivity|apply IH].
Qed.

(** Saving a document as it was loaded leaves the collection as it is. *)
Lemma upsert_loaded (d : A) (l : list A) (id : ObjectId) :
  find (fun x => N.eqb (key x) id) l = Some d ->
  upsert key d l = l.
Proof.
  induction l as [|x r IH]; simpl; [discriminate|].
  destruct (N.eqb (key x) id) eqn:E.
  - intros [= ->]. now rewrite N.eqb_refl.
  - intros Hf. pose proof (find_some _ _ Hf) as [_ Hk].
    apply N.eqb_eq in Hk. subst id. rewrite E.
    now rewrite (IH Hf).
Qed.

Lemma fresh_id_above (l : list A) (x : A) :
  In x l -> (key x < fresh_id (map key l))%N.
Proof.
  unfold fresh_id. induction l as [|y r IH]; simpl; [tauto|].
  intros [->|Hin].
  - lia.
  - specialize (IH Hin). lia.
Qed.

(** A document built with a new ObjectId is appended by its first save. *)
Lemma upsert_new (d : A) (l : list A) :
  (forall x, In x l -> key x <> key d) ->
  upsert key d l = (l ++ [d])%list.
Proof.
  induction l as [|x r IH]; simpl; intros Hfresh; [reflexivity|].
  destruct (N.eqb (key x) (key d)) eqn:E.
  - apply N.eqb_eq in E. exfalso. apply (Hfresh x); auto.
  - f_equal. apply IH. intros y Hy. apply Hfresh. now right.
Qed.

Lemma upsert_fresh (d : A) (l : list A) :
  key d = fresh_id (map key l) ->
  upsert key d l = (l ++ [d])%list.
Proof.
  intros Hk. apply upsert_new. intros x Hin.
  pose proof (fresh_id_above l x Hin). lia.
Qed.

End Collections.

(** [n.toString()] tells positive numbers apart. *)
Lemma toString_inj (n m : Z) :
  0 < n -> 0 < m -> toString n = toString m -> n = m.
Proof.
  unfold toString. intros Hn Hm Heq.
  apply DecimalZ.to_int_inj.
  assert (Hnon : forall k, 0 < k ->
           NilZero.int_of_string (NilZero.string_of_int (Z.to_int k)) = Some (Z.to_int k)).
  { intros k Hk. destruct k as [|p|p]; try lia.
    apply NilZero.isi; simpl; intros [= Hp];
      now apply (DecimalPos.Unsigned.to_uint_nonnil p). }
  pose proof (Hnon n Hn) as H1. pose proof (Hnon m Hm) as H2.
  rewrite Heq in H1. congruence.
Qed.

Section Properties.
Context `{env : Collaborators}.

(* Codes and timestamps stay symbolic while a handler is run. *)
Local Arguments Z.add _ _ : simpl never.
Local Arguments Z.sub _ _ : simpl never.
Local Arguments Z.mul _ _ : simpl never.
Local Arguments Z.modulo _ _ : simpl never.
Local Arguments toString _ : simpl never.

(** Unfolding of the monad and of the collaborator calls. *)
Ltac unfold_prims :=
  unfold save, save_session, sendNotificationEmail, commitTransaction,
    abortTransaction, endSession, startSession, startTransaction,
    session_inTransaction, Approval_findById_session, Approval_findById,
    User_findById, Approval_findOne, User_findOne, Admin_findOne,
    Approval_findByIdAndDelete, generateCryptoFields, generateVoterId,
    new_User, new_Approval, bcrypt_hash_rounds, randomInt, draw, Date_now,
    console_log, res_status, res_json, fallible, try_catch, bind, ret, throw,
    gets, modify in *.

(** ** OTP.js *)

Lemma verified_flags (user : document) :
  doc_isVerified (verified user) = true /\ doc_otp (verified user) = None.
Proof. destruct user; split; reflexivity. Qed.

(** After a save the store holds the saved document. *)
Lemma store_save_holds (d : document) (s : store) : holds (store_save d s) d.
Proof.
  destruct d as [u|a]; simpl.
  - apply (find_upsert_same User._id u).
  - apply (find_upsert_same Approval._id a).
Qed.

(** C5: with the literal bypass code "1", verifyOTP succeeds whatever OTP
    state the record holds (none, expired or not matching): it sets
    isVerified, clears the otp sub-field and saves the record. *)
Theorem verifyOTP_bypass (user : document) (w : world) :
  faults (Save (collection_of user)) = false ->
  verifyOTP user "1" w
  = (Ok (verified user), with_db (store_save (verified user) (db w)) w)
  /\ doc_isVerified (verified user) = true
  /\ doc_otp (verified user) = None.
Proof.
  intros Hsave. split; [|apply verified_flags].
  unfold verifyOTP, verified. simpl String.eqb. cbv iota.
  unfold_prims.
  replace (collection_of (doc_set_otp None (doc_set_isVerified true user)))
    with (collection_of user) by (destruct user; reflexivity).
  now rewrite Hsave.
Qed.

Lemma collection_of_verified (user : document) :
  collection_of (verified user) = collection_of user.
Proof. now destruct user. Qed.

(** The two failures [verifyOTP] and [checkOtp] have in common. *)
Lemma verifyOTP_no_pending (user : document) (OTP : string) (w : world) :
  OTP <> "1" -> no_otp_pending user = true ->
  verifyOTP user OTP w = (Throw (Error "No OTP pending for this user"), w).
Proof.
  intros Hcode Hp. apply String.eqb_neq in Hcode.
  unfold verifyOTP. now rewrite Hcode, Hp.
Qed.

Lemma verifyOTP_expired (user : document) (OTP : string) (w : world) :
  OTP <> "1" -> no_otp_pending user = false -> now w > otp_expiresAt user ->
  verifyOTP user OTP w = (Throw (Error "OTP expired"), w).
Proof.
  intros Hcode Hp Hlate. apply String.eqb_neq in Hcode.
  unfold verifyOTP. rewrite Hcode, Hp. unfold_prims.
  destruct (Z.gtb_spec (now w) (otp_expiresAt user)); [reflexivity|lia].
Qed.

(** C4: with a code other than the bypass code, verifyOTP fails with
    "No OTP pending" when no OTP is stored, else with "OTP expired" when the
    clock is past expiresAt (whether or not the code matches), else with
    "OTP incorrect" when the hash comparison fails; otherwise it sets
    isVerified, clears the otp sub-field and saves the record, so that the
    store then holds the record verified and without otp. *)
Theorem verifyOTP_checks (user : document) (OTP : string) (w : world) :
  OTP <> "1" ->
  (no_otp_pending user = true ->
   verifyOTP user OTP w = (Throw (Error "No OTP pending for this user"), w))
  /\ (no_otp_pending user = false -> now w > otp_expiresAt user ->
      verifyOTP user OTP w = (Throw (Error "OTP expired"), w))
  /\ (no_otp_pending user = false -> now w <= otp_expiresAt user ->
      bcrypt_compare OTP (otp_code user) = false ->
      verifyOTP user OTP w = (Throw (Error "OTP incorrect"), w))
  /\ (no_otp_pending user = false -> now w <= otp_expiresAt user ->
      bcrypt_compare OTP (otp_code user) = true ->
      faults (Save (collection_of user)) = false ->
      verifyOTP user OTP w
      = (Ok (verified user), with_db (store_save (verified user) (db w)) w)
      /\ doc_isVerified (verified user) = true
      /\ doc_otp (verified user) = None
      /\ holds (db (snd (verifyOTP user OTP w))) (verified user)).
Proof.
  intros Hcode.
  split; [now apply verifyOTP_no_pending|].
  split; [now apply verifyOTP_expired|].
  apply String.eqb_neq in Hcode.
  unfold verifyOTP. rewrite Hcode.
  split.
  - intros -> Hintime Hcmp. unfold_prims.
    destruct (Z.gtb_spec (now w) (otp_expiresAt user)); [lia|].
    now rewrite Hcmp.
  - intros -> Hintime Hcmp Hsave. unfold_prims.
    destruct (Z.gtb_spec (now w) (otp_expiresAt user)); [lia|].
    rewrite Hcmp. simpl negb. cbv iota.
    fold (verified user). rewrite collection_of_verified, Hsave.
    destruct (verified_flags user) as [Hver Hotp].
    split; [reflexivity|]. split; [exact Hver|]. split; [exact Hotp|].
    simpl. apply store_save_holds.
Qed.

(** C8: checkOtp leaves the world untouched (no document is saved, nothing
    is cleared); it answers true to the bypass code "1"; for another code it
    fails exactly as verifyOTP does when no OTP is stored or when the OTP has
    expired, and otherwise returns the result of the hash comparison. *)
Theorem checkOtp_read_only (user : document) (otp : string) (w : world) :
  snd (checkOtp user otp w) = w
  /\ fst (checkOtp user "1" w) = Ok true
  /\ (otp <> "1" ->
      (no_otp_pending user = true ->
       fst (checkOtp user otp w) = Throw (Error "No OTP pending for this user")
       /\ fst (verifyOTP user otp w) = Throw (Error "No OTP pending for this user"))
      /\ (no_otp_pending user = false -> now w > otp_expiresAt user ->
          fst (checkOtp user otp w) = Throw (Error "OTP expired")
          /\ fst (verifyOTP user otp w) = Throw (Error "OTP expired"))
      /\ (no_otp_pending user = false -> now w <= otp_expiresAt user ->
          fst (checkOtp user otp w) = Ok (bcrypt_compare otp (otp_code user)))).
Proof.
  split; [|split].
  - unfold checkOtp. unfold_prims.
    destruct (String.eqb otp "1"); [reflexivity|].
    destruct (no_otp_pending user); [reflexivity|].
    destruct (now w >? otp_expiresAt user); [reflexivity|].
    destruct (bcrypt_compare otp (otp_code user)); reflexivity.
  - reflexivity.
  - intros Hcode.
    pose proof (verifyOTP_no_pending user otp w Hcode) as Hnone.
    pose proof (verifyOTP_expired user otp w Hcode) as Hlate.
    apply String.eqb_neq in Hcode.
    unfold checkOtp. rewrite Hcode. unfold_prims.
    split; [|split].
    + intros Hp. rewrite (Hnone Hp), Hp. now split.
    + intros Hp Ht. rewrite (Hlate Hp Ht), Hp.
      destruct (Z.gtb_spec (now w) (otp_expiresAt user)); [now split|lia].
    + intros -> Ht.
      destruct (Z.gtb_spec (now w) (otp_expiresAt user)); [lia|].
      destruct (bcrypt_compare otp (otp_code user)); reflexivity.
Qed.

(** C3 (the range of the code): sendOtpToEmail draws its code with
    crypto.randomInt(100000, 999999), whose upper bound is exclusive: the
    code lies between 100000 and 999998 and is never 999999. The record it
    saves holds the bcrypt hash of the code and expiresAt = now + 5 minutes. *)
Theorem sendOtpToEmail_never_999999 (user : document) (subject : string) (w : world) :
  faults (Save (collection_of user)) = false ->
  exists (n : Z) (salt : string),
    100000 <= n <= 999998
    /\ toString n <> "999999"
    /\ fst (sendOtpToEmail user subject w)
       = Ok (toString n, with_issued_otp user (bcrypt_hash (toString n) salt) (now w))
    /\ db (snd (sendOtpToEmail user subject w))
       = store_save (with_issued_otp user (bcrypt_hash (toString n) salt) (now w)) (db w).
Proof.
  intros Hsave.
  exists (100000 + hd 0 (entropy w) mod (999999 - 100000)).
  exists (bcrypt_genSalt 10 (hd 0 (tl (entropy w)))).
  assert (Hr : 0 <= hd 0 (entropy w) mod (999999 - 100000) < 999999 - 100000)
    by (apply Z.mod_pos_bound; lia).
  split; [lia|]. split.
  - intros Heq. change "999999" with (toString 999999) in Heq.
    apply toString_inj in Heq; lia.
  - unfold sendOtpToEmail, with_issued_otp. unfold_prims. simpl.
    replace (collection_of (doc_set_otp _ user)) with (collection_of user)
      by (destruct user; reflexivity).
    rewrite Hsave. simpl. split; reflexivity.
Qed.

(** ** rejectUser *)

(** C6 (amended): a reject call with an empty or missing reason never changes
    the store. When the id names a pending record the call sets status 400
    and fails with "Rejection reason is required", the record still being
    there afterwards; when it names none, the lookup, which comes first,
    makes the call fail with status 404 "Pending user not found". *)
Theorem rejectUser_without_reason (id : ObjectId) (reason : option string) (w : world) :
  truthy reason = false ->
  db (snd (rejectUser id reason w)) = db w
  /\ (faults (FindById Approvals) = false ->
      (forall p,
          find (fun a => N.eqb (Approval._id a) id) (approvals (db w)) = Some p ->
          rejectUser id reason w
          = (Throw (Error "Rejection reason is required"),
             with_res (mkRes 400 (sent (res w))) w)
          /\ find (fun a => N.eqb (Approval._id a) id)
                  (approvals (db (snd (rejectUser id reason w)))) = Some p)
      /\ (find (fun a => N.eqb (Approval._id a) id) (approvals (db w)) = None ->
          rejectUser id reason w
          = (Throw (Error "Pending user not found"),
             with_res (mkRes 404 (sent (res w))) w))).
Proof.
  intros Hreason.
  unfold rejectUser. unfold_prims. rewrite Hreason.
  destruct (faults (FindById Approvals)); simpl.
  { split; [reflexivity|discriminate]. }
  destruct (find _ (approvals (db w))) as [p|] eqn:Hp; simpl.
  - split; [reflexivity|]. intros _. split; [|discriminate].
    intros p' [= <-]. split; [reflexivity|exact Hp].
  - split; [reflexivity|]. intros _. split; [discriminate|reflexivity].
Qed.

(** ** updateUserDetails *)

Lemma store_save_loaded (id : ObjectId) (s : store) (user : document) :
  lookup_either id s = Some user -> store_save user s = s.
Proof.
  unfold lookup_either, store_save. destruct s as [us ads aps]; simpl.
  destruct (find _ us) as [u|] eqn:Hu.
  - intros [= <-]. now rewrite (upsert_loaded User._id u us id Hu).
  - destruct (find _ aps) as [a|] eqn:Ha; [|discriminate].
    intros [= <-]. now rewrite (upsert_loaded Approval._id a aps id Ha).
Qed.

Lemma find_in_either_ok (id : ObjectId) (w : world) :
  faults (FindById Users) = false ->
  faults (FindById Approvals) = false ->
  find_in_either id w = (Ok (lookup_either id (db w)), w).
Proof.
  intros Hu Ha. unfold find_in_either, lookup_either. unfold_prims.
  rewrite Hu. simpl.
  destruct (find _ (users (db w))); [reflexivity|].
  rewrite Ha. simpl.
  destruct (find _ (approvals (db w))); reflexivity.
Qed.

Lemma lookup_either_id (id : ObjectId) (s : store) (user : document) :
  lookup_either id s = Some user -> doc_id user = id.
Proof.
  unfold lookup_either.
  destruct (find _ (users s)) as [u|] eqn:Hu.
  - intros [= <-]. apply N.eqb_eq. exact (proj2 (find_some _ _ Hu)).
  - destruct (find _ (approvals s)) as [a|] eqn:Ha; [|discriminate].
    intros [= <-]. apply N.eqb_eq. exact (proj2 (find_some _ _ Ha)).
Qed.

Lemma lookup_either_renamed (id : ObjectId) (s : store) (user : document) (v : string) :
  lookup_either id s = Some user ->
  lookup_either id (store_save (doc_set_name v user) s) = Some (doc_set_name v user).
Proof.
  intros Hl. pose proof (lookup_either_id id s user Hl) as Hid. revert Hl.
  unfold lookup_either.
  destruct (find _ (users s)) as [u|] eqn:Hu.
  - intros [= <-]. simpl in *. subst id.
    now rewrite (find_upsert_same User._id (User.set_name v u)).
  - destruct (find _ (approvals s)) as [a|] eqn:Ha; [|discriminate].
    intros [= <-]. simpl in *. rewrite Hu. subst id.
    now rewrite (find_upsert_same Approval._id (Approval.set_name v a)).
Qed.

Lemma lookup_either_other (id id' : ObjectId) (s : store) (d : document) :
  doc_id d = id -> id' <> id ->
  lookup_either id' (store_save d s) = lookup_either id' s.
Proof.
  intros Hid Hne. unfold lookup_either. destruct d as [u|a]; simpl in *.
  - rewrite (find_upsert_other User._id u (users s) id'); [reflexivity|congruence].
  - rewrite (find_upsert_other Approval._id a (approvals s) id');
      [reflexivity|congruence].
Qed.

(** C9: updateUserDetails looks the id up in the User collection and then in
    the Approval collection and fails with 404 "User not found" when neither
    has it. With a name it renames the record, saves it, so that the id then
    names the renamed record, and sends the name-change notification; without
    one it saves the record as it is (the store does not change), sends the
    generic notification, and in both cases answers 200. The record is
    written in both cases: a store that refuses the write makes the call fail
    with the store's error, with or without a name, before anything is
    notified. *)
Theorem updateUserDetails_spec (id : ObjectId) (name : option string) (w : world) :
  faults (FindById Users) = false ->
  faults (FindById Approvals) = false ->
  statusCode (res w) = 200 ->
  (lookup_either id (db w) = None ->
   updateUserDetails id name w
   = (Throw (Error "User not found"), with_res (mkRes 404 (sent (res w))) w))
  /\ (forall user, lookup_either id (db w) = Some user -> truthy name = true ->
        faults (Save (collection_of user)) = false ->
        faults Mail = false ->
        let w' := snd (updateUserDetails id name w) in
        fst (updateUserDetails id name w) = Ok tt
        /\ db w' = store_save (doc_set_name (field name) user) (db w)
        /\ lookup_either id (db w') = Some (doc_set_name (field name) user)
        /\ doc_name (doc_set_name (field name) user) = field name
        /\ outbox w'
           = (outbox w ++
              [mkMail (doc_email user) update_subject
                      ("Dear " ++ field name ++ ", Your name has been changed from "
                       ++ doc_name user ++ " to " ++ field name ++ ".")])%list
        /\ sent (res w') = Some (200, update_reply))
  /\ (forall user, lookup_either id (db w) = Some user -> truthy name = false ->
        faults (Save (collection_of user)) = false ->
        faults Mail = false ->
        let w' := snd (updateUserDetails id name w) in
        fst (updateUserDetails id name w) = Ok tt
        /\ db w' = db w
        /\ lookup_either id (db w') = Some user
        /\ outbox w'
           = (outbox w ++
              [mkMail (doc_email user) update_subject
                      ("Dear " ++ doc_name user ++ ", Your profile has been updated.")])%list
        /\ sent (res w') = Some (200, update_reply))
  /\ (forall user, lookup_either id (db w) = Some user ->
        faults (Save (collection_of user)) = true ->
        updateUserDetails id name w
        = (Throw (Error (fault_message (Save (collection_of user)))), w)).
Proof.
  intros Hfu Hfa Hstatus.
  assert (Hcoll : forall v user, collection_of (doc_set_name v user) = collection_of user)
    by (intros v [u|a]; reflexivity).
  unfold updateUserDetails, bind.
  rewrite (find_in_either_ok id w Hfu Hfa).
  split; [|split; [|split]].
  - intros ->. reflexivity.
  - intros user Hlook Hname Hsave Hmail. rewrite Hlook, Hname. unfold_prims.
    rewrite Hcoll, Hsave, Hmail. simpl. rewrite Hstatus.
    split; [reflexivity|]. split; [reflexivity|].
    split; [now apply lookup_either_renamed|].
    destruct user; (repeat split; reflexivity).
  - intros user Hlook Hname Hsave Hmail. rewrite Hlook, Hname. unfold_prims.
    rewrite Hsave, Hmail. simpl. rewrite Hstatus.
    rewrite (store_save_loaded id (db w) user Hlook).
    repeat split; try reflexivity. exact Hlook.
  - intros user Hlook Hsave. rewrite Hlook. unfold_prims.
    destruct (truthy name).
    + rewrite Hcoll, Hsave. reflexivity.
    + rewrite Hsave. reflexivity.
Qed.

(** ** approveUser *)

(** Runs [approveUser] along the path the hypotheses in the context select. *)
Ltac run_approve :=
  unfold approveUser; unfold_prims; simpl;
  repeat match goal with
         | H : ?x = _ |- context [?x] => rewrite H; simpl
         end.

Ltac now_unchanged :=
  left; run_approve;
  split; [reflexivity | intros ? ?; unfold approved_reply; discriminate].

Lemma approveUser_commits (id : ObjectId) (w : world) (p : Approval.t) :
  transaction_succeeds id w p ->
  let r := approveUser id w in
  fst r = Ok tt
  /\ db (snd r) = committed_store w p
  /\ sent (res (snd r)) = Some (statusCode (res w), approved_reply (approved_voterId w))
  /\ outbox (snd r)
     = (if faults Mail then outbox w else (outbox w ++ [approval_mail w p])%list)
  /\ console (snd r)
     = (if faults Mail
        then (console w
              ++ [("Notification email failed: " ++ fault_message Mail)%string])%list
        else console w).
Proof.
  intros (H1 & H2 & H3 & H4 & H5 & H6 & H7).
  unfold committed_store.
  rewrite <- (upsert_fresh User._id (approved_user w p) (users (db w)) eq_refl).
  run_approve.
  destruct (faults Mail); simpl; repeat split; reflexivity.
Qed.

(** Every call either leaves the store as it was and does not answer with
    the approval, or commits both writes. *)
Lemma approveUser_cases (id : ObjectId) (w : world) :
  let r := approveUser id w in
  (db (snd r) = db w
   /\ forall sc v, sent (res (snd r)) <> Some (sc, approved_reply v))
  \/ (exists p, transaction_succeeds id w p).
Proof.
  unfold transaction_succeeds.
  destruct (faults (FindById Approvals)) eqn:H1; [now_unchanged|].
  destruct (find (fun a => N.eqb (Approval._id a) id) (approvals (db w)))
    as [p|] eqn:H2; [|now_unchanged].
  destruct (Approval.isVerified p) eqn:H3; [|now_unchanged].
  destruct (faults CryptoFields) eqn:H4; [now_unchanged|].
  destruct (faults (Save Users)) eqn:H5; [now_unchanged|].
  destruct (faults (Save Approvals)) eqn:H6; [now_unchanged|].
  destruct (faults Commit) eqn:H7; [now_unchanged|].
  right. exists p. tauto.
Qed.

(** C1: approveUser is all-or-nothing. A failure of the User write, of the
    pending-status write or of the commit leaves the store in its pre-call
    state: no User record is created and the pending records are unchanged.
    In every call the store is either left as it was, or holds both the new
    User record and the pending record marked Accepted. *)
Theorem approveUser_all_or_nothing (id : ObjectId) (w : world) :
  let w' := snd (approveUser id w) in
  (faults (Save Users) = true \/ faults (Save Approvals) = true
   \/ faults Commit = true ->
   db w' = db w
   /\ users (db w') = users (db w)
   /\ approvals (db w') = approvals (db w))
  /\ (db w' = db w
      \/ exists p,
          find (fun a => N.eqb (Approval._id a) id) (approvals (db w)) = Some p
          /\ users (db w') = (users (db w) ++ [approved_user w p])%list
          /\ approvals (db w')
             = upsert Approval._id (Approval.set_status "Accepted" p)
                      (approvals (db w))).
Proof.
  destruct (approveUser_cases id w) as [[Hsame _]|[p Hp]]; simpl in *.
  - split.
    + intros _. now rewrite Hsame.
    + now left.
  - split.
    + destruct Hp as (_ & _ & _ & _ & H5 & H6 & H7).
      intros [H|[H|H]]; congruence.
    + right. exists p.
      destruct (approveUser_commits id w p Hp) as (_ & Hdb & _).
      simpl in Hdb. rewrite Hdb.
      destruct Hp as (_ & Hfind & _). now repeat split.
Qed.

(** C10: when approveUser answers with the approval, the pending record it
    was called on differs from what it was in its status only, now
    "Accepted" (the other pending records are untouched), and the User record
    it creates carries the name, email, password hash and pincode of the
    pending record, with isVerified set. *)
Theorem approveUser_copies_fields (id : ObjectId) (w : world) (sc : Z) (v : string) :
  sent (res (snd (approveUser id w))) = Some (sc, approved_reply v) ->
  exists (p : Approval.t) (u : User.t),
    let w' := snd (approveUser id w) in
    let p' := Approval.set_status "Accepted" p in
    find (fun a => N.eqb (Approval._id a) id) (approvals (db w)) = Some p
    /\ find (fun a => N.eqb (Approval._id a) id) (approvals (db w')) = Some p'
    /\ (forall id', id' <> id ->
          find (fun a => N.eqb (Approval._id a) id') (approvals (db w'))
          = find (fun a => N.eqb (Approval._id a) id') (approvals (db w)))
    /\ Approval.status p' = "Accepted"
    /\ Approval._id p' = Approval._id p
    /\ Approval.name p' = Approval.name p
    /\ Approval.email p' = Approval.email p
    /\ Approval.password p' = Approval.password p
    /\ Approval.pincode p' = Approval.pincode p
    /\ Approval.isVerified p' = Approval.isVerified p
    /\ Approval.otp p' = Approval.otp p
    /\ users (db w') = (users (db w) ++ [u])%list
    /\ User.name u = Approval.name p
    /\ User.email u = Approval.email p
    /\ User.password u = Approval.password p
    /\ User.pincode u = Approval.pincode p
    /\ User.isVerified u = true.
Proof.
  intros Hsent.
  destruct (approveUser_cases id w) as [[_ Hno]|[p Hp]]; simpl in *.
  - exfalso. exact (Hno sc v Hsent).
  - exists p, (approved_user w p).
    destruct (approveUser_commits id w p Hp) as (_ & Hdb & _).
    simpl in Hdb. rewrite Hdb. simpl.
    destruct Hp as (_ & Hfind & _).
    pose proof (find_some _ _ Hfind) as [_ Hid]. apply N.eqb_eq in Hid.
    split; [exact Hfind|]. subst id. split.
    { apply (find_upsert_same Approval._id (Approval.set_status "Accepted" p)). }
    split.
    { intros id' Hne. apply find_upsert_other. simpl. congruence. }
    repeat split; reflexivity.
Qed.

(** C7: the two notification sends are handled differently. When the mailer
    fails, an approval whose transaction went through still answers 200 with
    the voter ID, the committed store standing and the failure only logged;
    a rejection lets the failure propagate and leaves the pending record in
    the store. *)
Theorem notification_failure_asymmetry :
  faults Mail = true ->
  (forall id w p,
      transaction_succeeds id w p ->
      statusCode (res w) = 200 ->
      let r := approveUser id w in
      fst r = Ok tt
      /\ sent (res (snd r)) = Some (200, approved_reply (approved_voterId w))
      /\ db (snd r) = committed_store w p
      /\ outbox (snd r) = outbox w
      /\ console (snd r)
         = (console w
            ++ [("Notification email failed: " ++ fault_message Mail)%string])%list)
  /\ (forall id reason w p,
         faults (FindById Approvals) = false ->
         find (fun a => N.eqb (Approval._id a) id) (approvals (db w)) = Some p ->
         truthy reason = true ->
         rejectUser id reason w = (Throw (Error (fault_message Mail)), w)
         /\ find (fun a => N.eqb (Approval._id a) id)
                 (approvals (db (snd (rejectUser id reason w)))) = Some p).
Proof.
  intros Hmail. split.
  - intros id w p Hp Hstatus.
    destruct (approveUser_commits id w p Hp) as (Hok & Hdb & Hsent & Hout & Hlog).
    simpl in *. rewrite Hmail in Hout, Hlog. rewrite Hstatus in Hsent.
    repeat split; assumption.
  - intros id reason w p Hfind Hp Hreason.
    unfold rejectUser. unfold_prims. rewrite Hfind. simpl.
    rewrite Hp, Hreason, Hmail. simpl. split; [reflexivity|exact Hp].
Qed.

(** ** registerUser *)

Lemma upsert_last {A : Type} (key : A -> ObjectId) (d d' : A) (l : list A) :
  (forall x, In x l -> key x <> key d) ->
  key d' = key d ->
  upsert key d' (l ++ [d]) = (l ++ [d'])%list.
Proof.
  intros Hfresh Hk. induction l as [|x r IH]; simpl.
  - rewrite Hk, N.eqb_refl. reflexivity.
  - destruct (N.eqb (key x) (key d')) eqn:E.
    + apply N.eqb_eq in E. exfalso. apply (Hfresh x); [now left|congruence].
    + f_equal. apply IH. intros y Hy. apply Hfresh. now right.
Qed.

Lemma find_email_present {A : Type} (f : A -> string) (e : string) (l : list A) :
  (exists x, In x l /\ f x = e) ->
  exists x, find (fun x => String.eqb (f x) e) l = Some x.
Proof.
  intros (x & Hin & Hx).
  destruct (find (fun x => String.eqb (f x) e) l) as [y|] eqn:Hf; [now exists y|].
  pose proof (find_none _ _ Hf x Hin) as Hno. simpl in Hno.
  rewrite Hx, String.eqb_refl in Hno. discriminate.
Qed.

Lemma find_email_absent {A : Type} (f : A -> string) (e : string) (l : list A) :
  ~ (exists x, In x l /\ f x = e) ->
  find (fun x => String.eqb (f x) e) l = None.
Proof.
  intros Hno.
  destruct (find (fun x => String.eqb (f x) e) l) as [y|] eqn:Hf; [|reflexivity].
  destruct (find_some _ _ Hf) as [Hin Hy]. apply String.eqb_eq in Hy.
  exfalso. apply Hno. now exists y.
Qed.

(** C2 (amended): registration looks the email up in the User collection and
    then in the Admin collection. When either holds it, the call answers 400
    "Email already exists", fails, and creates no record. When neither these
    two nor the Approval collection holds it, the request carries a password
    and the store accepts the writes, the call appends one pending,
    unverified record with the submitted name, email and pincode and answers
    201 with the email. A request without a password whose email neither the
    User nor the Admin collection holds fails in bcrypt.hash: no record is
    created and no response is sent. *)
Theorem registerUser_duplicate_check (body : register_body) (w : world) :
  faults (FindOne Users) = false ->
  faults (FindOne Admins) = false ->
  (in_users (reg_email body) (db w) \/ in_admins (reg_email body) (db w) ->
   registerUser body w
   = (Throw (Error "Email already exists"),
      with_res (mkRes 400 (Some (400, duplicate_reply))) w)
   /\ db (snd (registerUser body w)) = db w)
  /\ (forall password,
         reg_password body = Some password ->
         ~ in_users (reg_email body) (db w) ->
         ~ in_admins (reg_email body) (db w) ->
         ~ in_approvals (reg_email body) (db w) ->
         faults (Save Approvals) = false ->
         let r := registerUser body w in
         fst r = Ok tt
         /\ sent (res (snd r)) = Some (201, registered_reply (reg_email body))
         /\ users (db (snd r)) = users (db w)
         /\ admins (db (snd r)) = admins (db w)
         /\ exists a,
             approvals (db (snd r)) = (approvals (db w) ++ [a])%list
             /\ Approval.name a = reg_name body
             /\ Approval.email a = reg_email body
             /\ Approval.pincode a = reg_pincode body
             /\ Approval.status a = "Pending"
             /\ Approval.isVerified a = false)
  /\ (reg_password body = None ->
      ~ in_users (reg_email body) (db w) ->
      ~ in_admins (reg_email body) (db w) ->
      exists e, registerUser body w = (Throw e, w)).
Proof.
  intros Hfu Hfa. split; [|split].
  - intros Hdup.
    assert (Hrun : registerUser body w
                   = (Throw (Error "Email already exists"),
                      with_res (mkRes 400 (Some (400, duplicate_reply))) w)).
    { unfold registerUser. unfold_prims. rewrite Hfu. simpl.
      destruct (find (fun u => String.eqb (User.email u) (reg_email body))
                     (users (db w))) as [u|] eqn:Hu; [reflexivity|].
      rewrite Hfa. simpl.
      destruct Hdup as [Hin|Hin].
      - apply (find_email_present User.email) in Hin. destruct Hin as [x Hx].
        congruence.
      - apply (find_email_present Admin.email) in Hin. destruct Hin as [x Hx].
        now rewrite Hx. }
    rewrite Hrun. now split.
  - intros password Hpw Hnu Hna _ Hsave. simpl.
    apply (find_email_absent User.email) in Hnu.
    apply (find_email_absent Admin.email) in Hna.
    unfold registerUser, sendOtpToEmail. unfold_prims.
    rewrite Hfu. simpl. rewrite Hnu, Hfa. simpl. rewrite Hna. simpl.
    rewrite Hpw. simpl. rewrite Hsave. simpl.
    repeat split.
    eexists. split.
    + set (a0 := Approval.mk _ _ _ _ _ _ _ None).
      rewrite (upsert_fresh Approval._id a0 (approvals (db w)) eq_refl).
      apply upsert_last; [|reflexivity].
      intros x Hin. pose proof (fresh_id_above Approval._id _ x Hin) as Hlt.
      subst a0. simpl. lia.
    + repeat split; reflexivity.
  - intros Hpw Hnu Hna.
    apply (find_email_absent User.email) in Hnu.
    apply (find_email_absent Admin.email) in Hna.
    eexists. unfold registerUser. unfold_prims.
    rewrite Hfu. simpl. rewrite Hnu, Hfa. simpl. rewrite Hna. simpl.
    rewrite Hpw. reflexivity.
Qed.

(** ** Further properties of OTP.js *)

Lemma verified_issued (user : document) (o : option otp_t) :
  verified (doc_set_otp o user) = verified user.
Proof. now destruct user. Qed.

Lemma collection_of_set_otp (user : document) (o : option otp_t) :
  collection_of (doc_set_otp o user) = collection_of user.
Proof. now destruct user. Qed.

Lemma no_otp_pending_verified (user : document) :
  no_otp_pending (verified user) = true.
Proof. now destruct user. Qed.

Ltac fold_verified :=
  repeat match goal with
         | |- context [doc_set_otp None (doc_set_isVerified true ?u)] =>
           change (doc_set_otp None (doc_set_isVerified true u)) with (verified u)
         end.

(** A verification that succeeds leaves the document verified. *)
Lemma verifyOTP_ok_inv (user user' : document) (OTP : string) (w w' : world) :
  verifyOTP user OTP w = (Ok user', w') ->
  user' = verified user
  /\ w' = with_db (store_save (verified user) (db w)) w
  /\ faults (Save (collection_of user)) = false.
Proof.
  unfold verifyOTP. unfold_prims. fold (verified user).
  rewrite collection_of_verified.
  destruct (String.eqb OTP "1").
  - destruct (faults (Save (collection_of user))); [discriminate|].
    intros [= <- <-]. auto.
  - destruct (no_otp_pending user); [discriminate|].
    destruct (now w >? otp_expiresAt user); [discriminate|].
    destruct (bcrypt_compare OTP (otp_code user)); simpl; [|discriminate].
    destruct (faults (Save (collection_of user))); [discriminate|].
    intros [= <- <-]. auto.
Qed.

(** X1: a code issued by sendOtpToEmail is accepted by verifyOTP up to and
    including the instant five minutes after the issue, and refused as
    expired after it, provided bcrypt.compare accepts a string against its
    own hash under a salt of bcrypt.genSalt(10) and such hashes are not
    empty. *)
Theorem issued_code_verifies (user : document) (subject : string) (w : world) :
  faults (Save (collection_of user)) = false ->
  (forall s r, bcrypt_compare s (bcrypt_hash s (bcrypt_genSalt 10 r)) = true) ->
  (forall s r, bcrypt_hash s (bcrypt_genSalt 10 r) <> "") ->
  exists (OTP : string) (issued : document),
    fst (sendOtpToEmail user subject w) = Ok (OTP, issued)
    /\ (forall w2, now w2 <= now w + 300000 ->
          verifyOTP issued OTP w2
          = (Ok (verified user), with_db (store_save (verified user) (db w2)) w2))
    /\ (forall w2, now w2 > now w + 300000 -> OTP <> "1" ->
          verifyOTP issued OTP w2 = (Throw (Error "OTP expired"), w2)).
Proof.
  intros Hsave Hcmp Hne.
  unfold sendOtpToEmail. unfold_prims. simpl.
  rewrite collection_of_set_otp, Hsave. simpl.
  eexists. eexists. split; [reflexivity|].
  set (OTP := toString _).
  set (h := bcrypt_hash OTP _).
  assert (Hpend : no_otp_pending (doc_set_otp (Some (mkOtp h (now w + 5 * 60 * 1000))) user)
                  = false).
  { destruct user; simpl; apply String.eqb_neq; apply Hne. }
  assert (Hcode : otp_code (doc_set_otp (Some (mkOtp h (now w + 5 * 60 * 1000))) user) = h)
    by (destruct user; reflexivity).
  assert (Hexp : otp_expiresAt (doc_set_otp (Some (mkOtp h (now w + 5 * 60 * 1000))) user)
                 = now w + 300000)
    by (destruct user; reflexivity).
  split.
  - intros w2 Hin. unfold verifyOTP. unfold_prims. fold_verified.
    rewrite !verified_issued, collection_of_verified, Hsave.
    destruct (String.eqb OTP "1"); [reflexivity|].
    rewrite Hpend, Hexp, Hcode.
    destruct (Z.gtb_spec (now w2) (now w + 300000)); [lia|].
    unfold h. rewrite Hcmp. reflexivity.
  - intros w2 Hlate Hnot1.
    apply verifyOTP_expired; [exact Hnot1|exact Hpend|].
    rewrite Hexp. exact Hlate.
Qed.

(** X2: an OTP is good for one verification. Once verifyOTP has succeeded,
    the document it leaves has no OTP pending: any later code other than the
    bypass code is refused by verifyOTP and by checkOtp alike. *)
Theorem verified_code_is_spent (user user' : document) (OTP OTP2 : string)
        (w w' w2 : world) :
  verifyOTP user OTP w = (Ok user', w') ->
  OTP2 <> "1" ->
  verifyOTP user' OTP2 w2 = (Throw (Error "No OTP pending for this user"), w2)
  /\ checkOtp user' OTP2 w2 = (Throw (Error "No OTP pending for this user"), w2)
  /\ doc_isVerified user' = true.
Proof.
  intros Hok Hcode.
  destruct (verifyOTP_ok_inv _ _ _ _ _ Hok) as (-> & _ & _).
  split; [|split].
  - apply verifyOTP_no_pending; [exact Hcode|apply no_otp_pending_verified].
  - apply String.eqb_neq in Hcode.
    unfold checkOtp. now rewrite Hcode, no_otp_pending_verified.
  - apply verified_flags.
Qed.

(** X3: checkOtp predicts verifyOTP. When the save goes through, checkOtp
    answers true exactly when verifyOTP succeeds, and when it answers false
    verifyOTP fails with "OTP incorrect". *)
Theorem checkOtp_predicts_verifyOTP (user : document) (otp : string) (w : world) :
  faults (Save (collection_of user)) = false ->
  (fst (checkOtp user otp w) = Ok true
   <-> fst (verifyOTP user otp w) = Ok (verified user))
  /\ (fst (checkOtp user otp w) = Ok false ->
      verifyOTP user otp w = (Throw (Error "OTP incorrect"), w)).
Proof.
  intros Hsave.
  unfold checkOtp, verifyOTP. unfold_prims. fold (verified user).
  rewrite collection_of_verified, Hsave.
  destruct (String.eqb otp "1"); simpl.
  { split; [tauto|discriminate]. }
  destruct (no_otp_pending user); simpl.
  { split; [split; discriminate|discriminate]. }
  destruct (now w >? otp_expiresAt user); simpl.
  { split; [split; discriminate|discriminate]. }
  destruct (bcrypt_compare otp (otp_code user)); simpl.
  - split; [tauto|discriminate].
  - split; [split; discriminate|reflexivity].
Qed.

(** X4: sendOtpToEmail sends no mail. Whatever fails, the outbox is as it
    was; when the save goes through, the one trace of the plaintext code
    outside the return value is the line written to the console. *)
Theorem sendOtpToEmail_only_logs (user : document) (subject : string) (w : world) :
  outbox (snd (sendOtpToEmail user subject w)) = outbox w
  /\ (faults (Save (collection_of user)) = false ->
      exists (OTP : string) (issued : document),
        fst (sendOtpToEmail user subject w) = Ok (OTP, issued)
        /\ console (snd (sendOtpToEmail user subject w))
           = (console w
              ++ [("[OTP] Sending OTP to " ++ doc_email user ++ ": " ++ OTP)%string])%list).
Proof.
  unfold sendOtpToEmail. unfold_prims. simpl.
  rewrite collection_of_set_otp.
  destruct (faults (Save (collection_of user))); simpl.
  - split; [reflexivity|discriminate].
  - split; [reflexivity|]. intros _. eexists. eexists.
    split; [reflexivity|]. destruct user; reflexivity.
Qed.

(** ** verifyUserOtp and resendOtp *)

(** A verification that fails leaves the world as it was. *)
Lemma verifyOTP_throw_inv (user : document) (OTP : string) (w w' : world) (e : error) :
  verifyOTP user OTP w = (Throw e, w') -> w' = w.
Proof.
  unfold verifyOTP. unfold_prims.
  destruct (String.eqb OTP "1").
  - destruct (faults _); [now intros [= _ <-]|discriminate].
  - destruct (no_otp_pending user); [now intros [= _ <-]|].
    destruct (now w >? otp_expiresAt user); [now intros [= _ <-]|].
    destruct (bcrypt_compare OTP (otp_code user)); simpl; [|now intros [= _ <-]].
    destruct (faults _); [now intros [= _ <-]|discriminate].
Qed.

(** X5: verifyUserOtp refuses a request without email or without otp with
    status 400 before it asks the store anything, and a request for an email
    with no pending record with status 404; in both cases nothing but the
    status of the response changes. *)
Theorem verifyUserOtp_refusals (email otp : option string) (w : world) :
  (truthy email = false \/ truthy otp = false ->
   verifyUserOtp email otp w
   = (Throw (Error "Email and OTP are required"),
      with_res (mkRes 400 (sent (res w))) w))
  /\ (truthy email = true -> truthy otp = true ->
      faults (FindOne Approvals) = false ->
      pending_by_email (field email) (db w) = None ->
      verifyUserOtp email otp w
      = (Throw (Error "Pending user not found"),
         with_res (mkRes 404 (sent (res w))) w)).
Proof.
  unfold verifyUserOtp, pending_by_email. split.
  - intros [H|H]; rewrite H; simpl; [reflexivity|].
    now rewrite orb_true_r.
  - intros -> -> Hf Hnone. unfold_prims. simpl. now rewrite Hf, Hnone.
Qed.

(** X6: verifyUserOtp passes a failure of verifyOTP on as it is: the same
    error is thrown, no status is set on the response, nothing is sent and
    nothing is stored. *)
Theorem verifyUserOtp_propagates (email otp : option string) (w w' : world)
        (p : Approval.t) (e : error) :
  truthy email = true -> truthy otp = true ->
  faults (FindOne Approvals) = false ->
  pending_by_email (field email) (db w) = Some p ->
  verifyOTP (ApprovalDoc p) (field otp) w = (Throw e, w') ->
  verifyUserOtp email otp w = (Throw e, w).
Proof.
  unfold verifyUserOtp, pending_by_email.
  intros -> -> Hf Hp Hthrow.
  pose proof (verifyOTP_throw_inv _ _ _ _ _ Hthrow) as ->.
  unfold bind, Approval_findOne, fallible, gets.
  rewrite Hf. simpl. rewrite Hp, Hthrow. reflexivity.
Qed.

(** X7: when verifyOTP accepts the code, verifyUserOtp answers 200 and the
    store holds the pending record verified, with its otp cleared and its
    other fields as they were. *)
Theorem verifyUserOtp_success (email otp : option string) (w w' : world)
        (p : Approval.t) (user' : document) :
  truthy email = true -> truthy otp = true ->
  faults (FindOne Approvals) = false ->
  pending_by_email (field email) (db w) = Some p ->
  verifyOTP (ApprovalDoc p) (field otp) w = (Ok user', w') ->
  fst (verifyUserOtp email otp w) = Ok tt
  /\ sent (res (snd (verifyUserOtp email otp w)))
     = Some (200, [("message", "OTP verified successfully, awaiting admin approval")])
  /\ db (snd (verifyUserOtp email otp w))
     = store_save (ApprovalDoc (verified_approval p)) (db w)
  /\ pending_by_id (Approval._id p) (db (snd (verifyUserOtp email otp w)))
     = Some (verified_approval p)
  /\ Approval.isVerified (verified_approval p) = true
  /\ Approval.otp (verified_approval p) = None
  /\ Approval.status (verified_approval p) = Approval.status p
  /\ Approval.name (verified_approval p) = Approval.name p
  /\ Approval.email (verified_approval p) = Approval.email p
  /\ Approval.password (verified_approval p) = Approval.password p.
Proof.
  unfold verifyUserOtp, pending_by_email, pending_by_id.
  intros -> -> Hf Hp Hok.
  destruct (verifyOTP_ok_inv _ _ _ _ _ Hok) as (-> & -> & _).
  unfold bind, Approval_findOne, fallible, gets.
  rewrite Hf. simpl. rewrite Hp, Hok. simpl.
  repeat split.
  apply (find_upsert_same Approval._id (verified_approval p)).
Qed.

(** Looking a record up by email after it was saved under its id. *)
Lemma find_email_upsert (p p' : Approval.t) (l : list Approval.t) (e : string) :
  NoDup (map Approval._id l) ->
  find (fun a => String.eqb (Approval.email a) e) l = Some p ->
  Approval._id p' = Approval._id p ->
  Approval.email p' = e ->
  find (fun a => String.eqb (Approval.email a) e) (upsert Approval._id p' l) = Some p'.
Proof.
  intros Hnd Hfind Hid Hmail.
  induction l as [|x r IH]; simpl in *; [discriminate|].
  inversion Hnd as [|? ? Hnotin Hnd']; subst.
  destruct (String.eqb (Approval.email x) (Approval.email p')) eqn:Ex.
  - injection Hfind as ->. rewrite Hid, N.eqb_refl. simpl.
    now rewrite String.eqb_refl.
  - destruct (N.eqb (Approval._id x) (Approval._id p')) eqn:Ei.
    + exfalso. apply Hnotin. apply N.eqb_eq in Ei. rewrite Ei, Hid.
      apply in_map. exact (proj1 (find_some _ _ Hfind)).
    + simpl. rewrite Ex. now apply IH.
Qed.

(** X8: once verifyUserOtp has succeeded for an email, resendOtp for that
    email is refused with status 400: "User is already verified" while the
    record is still pending, and no new code is issued. *)
Theorem resendOtp_after_verification (email otp : option string) (w w2 : world)
        (p : Approval.t) :
  NoDup (map Approval._id (approvals (db w))) ->
  faults (FindOne Approvals) = false ->
  pending_by_email (field email) (db w) = Some p ->
  Approval.status p = "Pending" ->
  fst (verifyUserOtp email otp w) = Ok tt ->
  db w2 = db (snd (verifyUserOtp email otp w)) ->
  resendOtp email w2
  = (Throw (Error "User is already verified"),
     with_res (mkRes 400 (sent (res w2))) w2).
Proof.
  unfold pending_by_email.
  intros Hnd Hf Hp Hstatus Hok Hdb.
  assert (Hmail : Approval.email p = field email).
  { apply String.eqb_eq. exact (proj2 (find_some _ _ Hp)). }
  assert (Hrun : truthy email = true
                 /\ db (snd (verifyUserOtp email otp w))
                    = store_save (ApprovalDoc (verified_approval p)) (db w)).
  { revert Hok. unfold verifyUserOtp.
    destruct (truthy email); simpl; [|discriminate].
    destruct (truthy otp); simpl; [|discriminate].
    unfold bind, Approval_findOne, fallible, gets, res_status, res_json, modify, throw.
    rewrite Hf. simpl. rewrite Hp.
    destruct (verifyOTP (ApprovalDoc p) (field otp) w) as [[u'|e] w'] eqn:Hv;
      [|discriminate].
    destruct (verifyOTP_ok_inv _ _ _ _ _ Hv) as (-> & -> & _).
    intros _. split; reflexivity. }
  destruct Hrun as [Htruthy Hstore].
  rewrite Hstore in Hdb.
  unfold resendOtp. rewrite Htruthy. simpl.
  unfold bind, Approval_findOne, fallible, gets, res_status, modify, throw.
  rewrite Hf. simpl. rewrite Hdb. simpl.
  rewrite (find_email_upsert p (verified_approval p) (approvals (db w)) (field email)
                             Hnd Hp eq_refl Hmail).
  simpl. rewrite Hstatus. reflexivity.
Qed.

(** X9: resendOtp refuses, in this order, a request without email (400), an
    email with no pending record (404), a record that is no longer pending
    (400) and a record that is already verified (400). In each case only the
    status of the response changes: no code is drawn, stored or logged. *)
Theorem resendOtp_refusals (email : option string) (w : world) :
  (truthy email = false ->
   resendOtp email w
   = (Throw (Error "Email is required"), with_res (mkRes 400 (sent (res w))) w))
  /\ (truthy email = true -> faults (FindOne Approvals) = false ->
      (pending_by_email (field email) (db w) = None ->
       resendOtp email w
       = (Throw (Error "Pending user not found"),
          with_res (mkRes 404 (sent (res w))) w))
      /\ (forall p, pending_by_email (field email) (db w) = Some p ->
            Approval.status p <> "Pending" ->
            resendOtp email w
            = (Throw (Error "User is not in pending status"),
               with_res (mkRes 400 (sent (res w))) w))
      /\ (forall p, pending_by_email (field email) (db w) = Some p ->
            Approval.status p = "Pending" ->
            Approval.isVerified p = true ->
            resendOtp email w
            = (Throw (Error "User is already verified"),
               with_res (mkRes 400 (sent (res w))) w))).
Proof.
  unfold resendOtp, pending_by_email. split.
  - intros ->. reflexivity.
  - intros -> Hf. unfold bind, Approval_findOne, fallible, gets, res_status, modify, throw.
    rewrite Hf. simpl. split; [|split].
    + intros ->. reflexivity.
    + intros p -> Hst. apply String.eqb_neq in Hst. now rewrite Hst.
    + intros p -> Hst Hver. rewrite Hst, Hver. reflexivity.
Qed.

(** X10: for a pending, unverified record resendOtp stores a new code hash
    expiring five minutes later on that record, which stays pending and
    unverified, and answers with "New OTP sent to email" without sending any
    mail. *)
Theorem resendOtp_success (email : option string) (w : world) (p : Approval.t) :
  truthy email = true ->
  faults (FindOne Approvals) = false ->
  faults (Save Approvals) = false ->
  pending_by_email (field email) (db w) = Some p ->
  Approval.status p = "Pending" ->
  Approval.isVerified p = false ->
  exists (n : Z) (salt : string),
    let p' := Approval.set_otp
                (Some (mkOtp (bcrypt_hash (toString n) salt) (now w + 300000))) p in
    100000 <= n <= 999998
    /\ fst (resendOtp email w) = Ok tt
    /\ sent (res (snd (resendOtp email w)))
       = Some (statusCode (res w), [("message", "New OTP sent to email")])
    /\ db (snd (resendOtp email w)) = store_save (ApprovalDoc p') (db w)
    /\ pending_by_id (Approval._id p) (db (snd (resendOtp email w))) = Some p'
    /\ Approval.status p' = "Pending"
    /\ Approval.isVerified p' = false
    /\ outbox (snd (resendOtp email w)) = outbox w.
Proof.
  unfold pending_by_email, pending_by_id.
  intros Htruthy Hf Hsave Hp Hst Hver.
  exists (100000 + hd 0 (entropy w) mod (999999 - 100000)).
  exists (bcrypt_genSalt 10 (hd 0 (tl (entropy w)))).
  assert (Hr : 0 <= hd 0 (entropy w) mod (999999 - 100000) < 999999 - 100000)
    by (apply Z.mod_pos_bound; lia).
  split; [lia|].
  unfold resendOtp, sendOtpToEmail. rewrite Htruthy. unfold_prims. simpl.
  rewrite Hf. simpl. rewrite Hp, Hst, Hver. simpl. rewrite Hsave. simpl.
  repeat split; try assumption.
  apply (find_upsert_same Approval._id
           (Approval.set_otp (Some (mkOtp _ (now w + 5 * 60 * 1000))) p)).
Qed.

(** ** Further properties of approveUser *)

(** X11: approveUser answers 404 for an id with no pending record and 400
    for a record whose OTP was not verified. In both cases the transaction
    is aborted and nothing else happens: no key material is drawn, nothing
    is stored, mailed or logged. *)
Theorem approveUser_refusals (id : ObjectId) (w : world) :
  faults (FindById Approvals) = false ->
  (pending_by_id id (db w) = None ->
   approveUser id w
   = (Ok tt,
      with_res (mkRes 404 (Some (404, [("message", "Pending user not found")])))
               (with_session idle w)))
  /\ (forall p, pending_by_id id (db w) = Some p ->
        Approval.isVerified p = false ->
        approveUser id w
        = (Ok tt,
           with_res (mkRes 400 (Some (400, [("message", "User has not verified their OTP")])))
                    (with_session idle w))).
Proof.
  unfold pending_by_id. intros Hf. split.
  - intros Hnone. run_approve. reflexivity.
  - intros p Hp Hver. run_approve. reflexivity.
Qed.

(** X12: a failure inside the transaction never escapes approveUser. The
    handler returns normally, having answered 500 with the message of the
    call that failed; the session is closed, the store is as it was, and no
    notification is sent. *)
Theorem approveUser_failure_answer (id : ObjectId) (w : world) (p : Approval.t) :
  faults (FindById Approvals) = true
  \/ (pending_by_id id (db w) = Some p
      /\ Approval.isVerified p = true
      /\ (faults CryptoFields = true \/ faults (Save Users) = true
          \/ faults (Save Approvals) = true \/ faults Commit = true)) ->
  exists o,
    In o transaction_steps
    /\ faults o = true
    /\ fst (approveUser id w) = Ok tt
    /\ let w' := snd (approveUser id w) in
       res w' = mkRes 500 (Some (500, failure_reply o))
       /\ db w' = db w
       /\ session w' = idle
       /\ outbox w' = outbox w
       /\ console w'
          = (console w
             ++ [("Approval transaction failed: " ++ fault_message o)%string])%list.
Proof.
  unfold pending_by_id, transaction_steps.
  destruct (faults (FindById Approvals)) eqn:H1.
  { intros _. exists (FindById Approvals). split; [simpl; tauto|].
    split; [exact H1|]. run_approve. repeat split. }
  intros [Hf|(Hp & Hver & Hfault)]; [discriminate|].
  destruct (faults CryptoFields) eqn:H4.
  { exists CryptoFields. split; [simpl; tauto|].
    split; [exact H4|]. run_approve. repeat split. }
  destruct (faults (Save Users)) eqn:H5.
  { exists (Save Users). split; [simpl; tauto|].
    split; [exact H5|]. run_approve. repeat split. }
  destruct (faults (Save Approvals)) eqn:H6.
  { exists (Save Approvals). split; [simpl; tauto|].
    split; [exact H6|]. run_approve. repeat split. }
  destruct (faults Commit) eqn:H7.
  { exists Commit. split; [simpl; tauto|].
    split; [exact H7|]. run_approve. repeat split. }
  exfalso. destruct Hfault as [H|[H|[H|H]]]; discriminate.
Qed.

(** X13: the approval notification is sent only for a committed approval.
    Whenever approveUser adds a mail to the outbox, the transaction went
    through for the record, and the mail is the one carrying the voter ID
    of the User record that was stored. *)
Theorem approval_mail_only_after_commit (id : ObjectId) (w : world) :
  outbox (snd (approveUser id w)) <> outbox w ->
  exists p,
    transaction_succeeds id w p
    /\ db (snd (approveUser id w)) = committed_store w p
    /\ outbox (snd (approveUser id w)) = (outbox w ++ [approval_mail w p])%list
    /\ User.voterId (approved_user w p) = approved_voterId w.
Proof.
  intros Hout.
  destruct (faults (FindById Approvals)) eqn:H1;
    [exfalso; apply Hout; run_approve; reflexivity|].
  destruct (find (fun a => N.eqb (Approval._id a) id) (approvals (db w)))
    as [p|] eqn:H2; [|exfalso; apply Hout; run_approve; reflexivity].
  destruct (Approval.isVerified p) eqn:H3;
    [|exfalso; apply Hout; run_approve; reflexivity].
  destruct (faults CryptoFields) eqn:H4;
    [exfalso; apply Hout; run_approve; reflexivity|].
  destruct (faults (Save Users)) eqn:H5;
    [exfalso; apply Hout; run_approve; reflexivity|].
  destruct (faults (Save Approvals)) eqn:H6;
    [exfalso; apply Hout; run_approve; reflexivity|].
  destruct (faults Commit) eqn:H7;
    [exfalso; apply Hout; run_approve; reflexivity|].
  assert (Htx : transaction_succeeds id w p) by (unfold transaction_succeeds; tauto).
  exists p. split; [exact Htx|].
  destruct (approveUser_commits id w p Htx) as (_ & Hdb & _ & Hmail & _).
  simpl in Hdb, Hmail.
  destruct (faults Mail).
  - exfalso. apply Hout. exact Hmail.
  - repeat split; assumption.
Qed.

(** X14: approveUser does not look at the status of the record. A record
    that was approved is still found and still verified, so a second
    approval whose writes the store accepts goes through as the first did:
    it answers with a voter ID and appends one more User record with the
    same email. *)
Theorem approveUser_twice (id : ObjectId) (w w2 : world) (p : Approval.t) :
  transaction_succeeds id w p ->
  db w2 = db (snd (approveUser id w)) ->
  let p' := Approval.set_status "Accepted" p in
  transaction_succeeds id w2 p'
  /\ fst (approveUser id w2) = Ok tt
  /\ sent (res (snd (approveUser id w2)))
     = Some (statusCode (res w2), approved_reply (approved_voterId w2))
  /\ users (db (snd (approveUser id w2)))
     = (users (db w) ++ [approved_user w p; approved_user w2 p'])%list
  /\ User.email (approved_user w2 p') = User.email (approved_user w p).
Proof.
  intros Htx Hdb. simpl.
  destruct (approveUser_commits id w p Htx) as (_ & Hdb1 & _).
  simpl in Hdb1. rewrite Hdb1 in Hdb.
  assert (Htx2 : transaction_succeeds id w2 (Approval.set_status "Accepted" p)).
  { destruct Htx as (H1 & H2 & H3 & H4 & H5 & H6 & H7).
    unfold transaction_succeeds. repeat split; try assumption.
    rewrite Hdb. simpl.
    pose proof (find_some _ _ H2) as [_ Hid]. apply N.eqb_eq in Hid. subst id.
    apply (find_upsert_same Approval._id (Approval.set_status "Accepted" p)). }
  split; [exact Htx2|].
  destruct (approveUser_commits id w2 _ Htx2) as (Hok & Hdb2 & Hsent & _).
  simpl in Hok, Hdb2, Hsent.
  split; [exact Hok|]. split; [exact Hsent|].
  rewrite Hdb2. unfold committed_store. simpl. rewrite Hdb. simpl.
  split; [|reflexivity].
  now rewrite <- app_assoc.
Qed.

(** ** Further properties of rejectUser *)

(** X15: a rejection with a reason, for an existing record and with mailer
    and store working, sends the rejection mail quoting the reason, removes
    the record and no other, and answers 200; a second rejection of the same
    id is then refused with 404. *)
Theorem rejectUser_success (id : ObjectId) (reason : option string) (w : world)
        (p : Approval.t) :
  faults (FindById Approvals) = false ->
  faults Mail = false ->
  faults (Delete Approvals) = false ->
  pending_by_id id (db w) = Some p ->
  truthy reason = true ->
  let w' := snd (rejectUser id reason w) in
  fst (rejectUser id reason w) = Ok tt
  /\ res w' = mkRes 200 (Some (200, rejected_reply))
  /\ outbox w' = (outbox w ++ [rejection_mail p (field reason)])%list
  /\ pending_by_id id (db w') = None
  /\ (forall id', id' <> id -> pending_by_id id' (db w') = pending_by_id id' (db w))
  /\ users (db w') = users (db w)
  /\ fst (rejectUser id reason w') = Throw (Error "Pending user not found").
Proof.
  unfold pending_by_id. intros Hf Hmail Hdel Hp Hreason.
  assert (Hgone : forall l,
             find (fun a => N.eqb (Approval._id a) id)
                  (filter (fun a => negb (N.eqb (Approval._id a) id)) l) = None).
  { induction l as [|x r IH]; simpl; [reflexivity|].
    destruct (N.eqb (Approval._id x) id) eqn:E; simpl; [exact IH|].
    now rewrite E. }
  assert (Hkeep : forall id' l, id' <> id ->
             find (fun a => N.eqb (Approval._id a) id')
                  (filter (fun a => negb (N.eqb (Approval._id a) id)) l)
             = find (fun a => N.eqb (Approval._id a) id') l).
  { intros id' l Hne. induction l as [|x r IH]; simpl; [reflexivity|].
    destruct (N.eqb (Approval._id x) id) eqn:E; simpl.
    - apply N.eqb_eq in E.
      destruct (N.eqb (Approval._id x) id') eqn:E'; [|exact IH].
      apply N.eqb_eq in E'. congruence.
    - destruct (N.eqb (Approval._id x) id'); [reflexivity|exact IH]. }
  unfold rejectUser. unfold_prims.
  rewrite Hf. simpl. rewrite Hp, Hreason. simpl. rewrite Hmail. simpl.
  rewrite Hdel. simpl. rewrite Hgone. simpl.
  repeat split; auto.
Qed.

(** X16: the rejection mail goes out before the record is deleted. When the
    deletion fails, rejectUser fails with the store's error and sends no
    response, the record is still in the store, and the mail telling the
    user of the rejection has been sent. *)
Theorem rejectUser_delete_failure (id : ObjectId) (reason : option string) (w : world)
        (p : Approval.t) :
  faults (FindById Approvals) = false ->
  faults Mail = false ->
  faults (Delete Approvals) = true ->
  pending_by_id id (db w) = Some p ->
  truthy reason = true ->
  rejectUser id reason w
  = (Throw (Error (fault_message (Delete Approvals))),
     with_outbox (outbox w ++ [rejection_mail p (field reason)]) w)
  /\ pending_by_id id (db (snd (rejectUser id reason w))) = Some p.
Proof.
  unfold pending_by_id. intros Hf Hmail Hdel Hp Hreason.
  unfold rejectUser. unfold_prims.
  rewrite Hf. simpl. rewrite Hp, Hreason. simpl. rewrite Hmail. simpl.
  rewrite Hdel. simpl. split; [reflexivity|exact Hp].
Qed.

(** ** What the handlers keep of the store *)

Section Preservation.
Variable P : store -> Prop.

Lemma preserves_bind {A B : Type} (m : M A) (k : A -> M B) :
  preserves P m -> (forall a, preserves P (k a)) -> preserves P (bind m k).
Proof.
  intros Hm Hk w Hw. unfold bind.
  specialize (Hm w Hw). destruct (m w) as [[a|e] w1]; simpl in *.
  - now apply Hk.
  - exact Hm.
Qed.

Lemma preserves_try_catch {A : Type} (m : M A) (h : error -> M A) :
  preserves P m -> (forall e, preserves P (h e)) -> preserves P (try_catch m h).
Proof.
  intros Hm Hh w Hw. unfold try_catch.
  specialize (Hm w Hw). destruct (m w) as [[a|e] w1]; simpl in *.
  - exact Hm.
  - now apply Hh.
Qed.

Lemma preserves_neutral {A : Type} (m : M A) :
  (forall w, db (snd (m w)) = db w) -> preserves P m.
Proof. intros Hm w Hw. now rewrite Hm. Qed.

Lemma preserves_fallible (o : op) : preserves P (fallible o).
Proof.
  apply preserves_neutral. intros w. unfold fallible. now destruct (faults o).
Qed.

Lemma preserves_save (d : document) :
  (forall s, P s -> P (store_save d s)) -> preserves P (save d).
Proof.
  intros Hd w Hw. unfold save, bind, fallible, modify.
  destruct (faults _); simpl; auto.
Qed.

Lemma preserves_save_session (d : document) :
  (forall s, P s -> P (store_save d s)) -> preserves P (save_session d).
Proof.
  intros Hd w Hw. unfold save_session, bind, fallible, modify.
  destruct (faults _); simpl; auto.
  destruct (inTransaction (session w)); simpl; auto.
Qed.

Lemma preserves_delete (id : ObjectId) :
  delete_closed P -> preserves P (Approval_findByIdAndDelete id).
Proof.
  intros Hd w Hw. unfold Approval_findByIdAndDelete, bind, fallible, modify.
  destruct (faults _); simpl; auto.
Qed.

Lemma preserves_commit : save_closed P -> preserves P commitTransaction.
Proof.
  intros Hc w Hw. unfold commitTransaction.
  destruct (faults Commit); simpl; auto.
  unfold apply_writes. generalize (db w) Hw.
  induction (writes (session w)) as [|d ds IH]; simpl; auto.
Qed.

End Preservation.

(** Walks through a handler, one bind, branch or collaborator call at a
    time. *)
Ltac preserve_step :=
  match goal with
  | |- preserves _ (bind _ _) => apply preserves_bind; [|intros ?]
  | |- preserves _ (try_catch _ _) => apply preserves_try_catch; [|intros ?]
  | |- preserves _ (fallible _) => apply preserves_fallible
  | |- preserves _ (save _) => apply preserves_save; solve [auto]
  | |- preserves _ (save_session _) => apply preserves_save_session; solve [auto]
  | |- preserves _ (Approval_findByIdAndDelete _) => apply preserves_delete; assumption
  | |- preserves _ commitTransaction => apply preserves_commit; assumption
  | |- preserves _ (if ?b then _ else _) => destruct b
  | |- preserves _ (match ?x with _ => _ end) => destruct x
  | |- preserves _ _ => apply preserves_neutral; intros ?; reflexivity
  end.

Ltac preserve :=
  unfold find_in_either;
  unfold User_findOne, Admin_findOne, Approval_findOne, User_findById,
    Approval_findById, Approval_findById_session, Approval_find_status,
    sendNotificationEmail, generateCryptoFields, generateVoterId,
    bcrypt_hash_rounds, randomInt, new_Approval, new_User;
  cbv zeta;
  repeat preserve_step.

Section Preservation_of_handlers.
Variable P : store -> Prop.

Lemma preserves_sendOtpToEmail (user : document) (subject : string) :
  (forall o s, P s -> P (store_save (doc_set_otp o user) s)) ->
  preserves P (sendOtpToEmail user subject).
Proof. intros H. unfold sendOtpToEmail. preserve. Qed.

Lemma preserves_verifyOTP (user : document) (OTP : string) :
  (forall s, P s -> P (store_save (verified user) s)) ->
  preserves P (verifyOTP user OTP).
Proof. intros H. unfold verifyOTP. fold_verified. preserve. Qed.

Lemma preserves_checkOtp (user : document) (otp : string) :
  preserves P (checkOtp user otp).
Proof. unfold checkOtp. preserve. Qed.

Hypothesis Happroval : approval_save_closed P.
Hypothesis Hdelete : delete_closed P.

Lemma preserves_registerUser (body : register_body) :
  preserves P (registerUser body).
Proof.
  unfold registerUser. preserve.
  apply preserves_sendOtpToEmail. intros o s. apply Happroval.
Qed.

Lemma preserves_verifyUserOtp (email otp : option string) :
  preserves P (verifyUserOtp email otp).
Proof.
  unfold verifyUserOtp. preserve.
  apply preserves_verifyOTP. intros s. apply Happroval.
Qed.

Lemma preserves_resendOtp (email : option string) :
  preserves P (resendOtp email).
Proof.
  unfold resendOtp. preserve.
  apply preserves_sendOtpToEmail. intros o s. apply Happroval.
Qed.

Lemma preserves_rejectUser (id : ObjectId) (reason : option string) :
  preserves P (rejectUser id reason).
Proof. unfold rejectUser. preserve. Qed.

Lemma preserves_getPendingUsers : preserves P getPendingUsers.
Proof. unfold getPendingUsers. preserve. Qed.

Hypothesis Hsave : save_closed P.

Lemma preserves_approveUser (id : ObjectId) : preserves P (approveUser id).
Proof. unfold approveUser. preserve. Qed.

Lemma preserves_updateUserDetails (id : ObjectId) (name : option string) :
  preserves P (updateUserDetails id name).
Proof. unfold updateUserDetails. preserve. Qed.

End Preservation_of_handlers.

Lemma find_app_first {A : Type} (f : A -> bool) (l l' : list A) (x : A) :
  find f l = Some x -> find f (l ++ l') = Some x.
Proof.
  induction l as [|y r IH]; simpl; [discriminate|].
  destruct (f y); [trivial|exact IH].
Qed.

(** X17: creating a record never overwrites one. Whatever fails, a pending
    record that an id names before registerUser is what the id names
    afterwards, unchanged, and a User record that an id names before
    approveUser is what the id names afterwards, unchanged: the documents
    these handlers build with [new] get ids no stored document has. *)
Theorem new_records_overwrite_nothing (w : world) :
  (forall body id p,
      pending_by_id id (db w) = Some p ->
      pending_by_id id (db (snd (registerUser body w))) = Some p)
  /\ (forall id0 id u,
         user_by_id id (db w) = Some u ->
         user_by_id id (db (snd (approveUser id0 w))) = Some u).
Proof.
  unfold pending_by_id, user_by_id. split.
  - intros body id p Hp.
    assert (Hne : id <> fresh_id (map Approval._id (approvals (db w)))).
    { destruct (find_some _ _ Hp) as [Hin Hid]. apply N.eqb_eq in Hid.
      pose proof (fresh_id_above Approval._id _ p Hin). lia. }
    unfold registerUser, sendOtpToEmail. unfold_prims.
    destruct (faults (FindOne Users)); simpl; [exact Hp|].
    destruct (find _ (users (db w))); simpl; [exact Hp|].
    destruct (faults (FindOne Admins)); simpl; [exact Hp|].
    destruct (find _ (admins (db w))); simpl; [exact Hp|].
    destruct (reg_password body); simpl; [|exact Hp].
    destruct (faults (Save Approvals)); simpl; [exact Hp|].
    rewrite !find_upsert_other; [exact Hp|exact Hne|exact Hne].
  - intros id0 id u Hu.
    destruct (approveUser_cases id0 w) as [[Hsame _]|[p Hp]]; simpl in *.
    + now rewrite Hsame.
    + destruct (approveUser_commits id0 w p Hp) as (_ & Hdb & _).
      simpl in Hdb. rewrite Hdb. simpl. now apply find_app_first.
Qed.

(** X18: the Admin collection is read-only for the approval controller, and
    the User collection is written by approveUser and updateUserDetails
    only. Whatever the request and whatever fails, no handler changes the
    admins, and registerUser, verifyUserOtp, resendOtp and rejectUser leave
    the users as they were. *)
Theorem handlers_frame (w : world) :
  (forall body,
      users (db (snd (registerUser body w))) = users (db w)
      /\ admins (db (snd (registerUser body w))) = admins (db w))
  /\ (forall email otp,
         users (db (snd (verifyUserOtp email otp w))) = users (db w)
         /\ admins (db (snd (verifyUserOtp email otp w))) = admins (db w))
  /\ (forall email,
         users (db (snd (resendOtp email w))) = users (db w)
         /\ admins (db (snd (resendOtp email w))) = admins (db w))
  /\ (forall id reason,
         users (db (snd (rejectUser id reason w))) = users (db w)
         /\ admins (db (snd (rejectUser id reason w))) = admins (db w))
  /\ (forall id, admins (db (snd (approveUser id w))) = admins (db w))
  /\ (forall id name, admins (db (snd (updateUserDetails id name w))) = admins (db w)).
Proof.
  set (P := fun s => users s = users (db w) /\ admins s = admins (db w)).
  set (Q := fun s => admins s = admins (db w)).
  assert (HP : approval_save_closed P) by (intros a s H; exact H).
  assert (HPd : delete_closed P) by (intros id s H; exact H).
  assert (HQ : save_closed Q) by (intros [u|a] s H; exact H).
  assert (HQa : approval_save_closed Q) by (intros a s H; exact H).
  assert (HQd : delete_closed Q) by (intros id s H; exact H).
  assert (Pw : P (db w)) by (split; reflexivity).
  assert (Qw : Q (db w)) by reflexivity.
  split; [intros; apply (preserves_registerUser P); assumption|].
  split; [intros; apply (preserves_verifyUserOtp P); assumption|].
  split; [intros; apply (preserves_resendOtp P); assumption|].
  split; [intros; apply (preserves_rejectUser P); assumption|].
  split; [intros; apply (preserves_approveUser Q); assumption|].
  intros; apply (preserves_updateUserDetails Q); assumption.
Qed.

(** ** Further properties of updateUserDetails *)

(** X19: a rename by updateUserDetails changes the name of the record the
    id names and nothing else: the record keeps its email, its verification
    flag and its otp, it is what the id names afterwards, and every other id
    names what it named before. *)
Theorem updateUserDetails_renames_only_target (id : ObjectId) (name : option string)
        (w : world) (user : document) :
  faults (FindById Users) = false ->
  faults (FindById Approvals) = false ->
  faults (Save Users) = false ->
  faults (Save Approvals) = false ->
  lookup_either id (db w) = Some user ->
  truthy name = true ->
  let renamed := doc_set_name (field name) user in
  let w' := snd (updateUserDetails id name w) in
  lookup_either id (db w') = Some renamed
  /\ (forall id', id' <> id -> lookup_either id' (db w') = lookup_either id' (db w))
  /\ doc_name renamed = field name
  /\ doc_email renamed = doc_email user
  /\ doc_isVerified renamed = doc_isVerified user
  /\ doc_otp renamed = doc_otp user
  /\ collection_of renamed = collection_of user.
Proof.
  intros Hfu Hfa Hsu Hsa Hlook Hname. simpl.
  assert (Hsave : forall d, faults (Save (collection_of d)) = false)
    by (intros [u|a]; assumption).
  assert (Hdb : db (snd (updateUserDetails id name w))
                = store_save (doc_set_name (field name) user) (db w)).
  { unfold updateUserDetails, bind.
    rewrite (find_in_either_ok id w Hfu Hfa), Hlook, Hname.
    unfold_prims. rewrite Hsave. simpl.
    destruct (faults Mail); reflexivity. }
  rewrite Hdb.
  split; [now apply lookup_either_renamed|].
  split.
  { intros id' Hne. apply (lookup_either_other id); [|exact Hne].
    rewrite <- (lookup_either_id id (db w) user Hlook). now destruct user. }
  destruct user; repeat split; reflexivity.
Qed.

(** X20: updateUserDetails saves before it notifies. When the mailer fails,
    the handler fails with the mailer's error and sends no response, yet the
    new name is already in the store. *)
Theorem updateUserDetails_mail_failure (id : ObjectId) (name : option string)
        (w : world) (user : document) :
  faults (FindById Users) = false ->
  faults (FindById Approvals) = false ->
  faults (Save Users) = false ->
  faults (Save Approvals) = false ->
  faults Mail = true ->
  lookup_either id (db w) = Some user ->
  truthy name = true ->
  updateUserDetails id name w
  = (Throw (Error (fault_message Mail)),
     with_db (store_save (doc_set_name (field name) user) (db w)) w)
  /\ lookup_either id (db (snd (updateUserDetails id name w)))
     = Some (doc_set_name (field name) user).
Proof.
  intros Hfu Hfa Hsu Hsa Hmail Hlook Hname.
  assert (Hsave : forall d, faults (Save (collection_of d)) = false)
    by (intros [u|a]; assumption).
  assert (Hrun : updateUserDetails id name w
                 = (Throw (Error (fault_message Mail)),
                    with_db (store_save (doc_set_name (field name) user) (db w)) w)).
  { unfold updateUserDetails, bind.
    rewrite (find_in_either_ok id w Hfu Hfa), Hlook, Hname.
    unfold_prims. rewrite Hsave, Hmail. reflexivity. }
  rewrite Hrun. split; [reflexivity|]. simpl.
  now apply lookup_either_renamed.
Qed.

(** ** Further properties of registerUser *)

Lemma toString_nonempty (n : Z) : 0 < n -> toString n <> "".
Proof.
  intros Hn. destruct n as [|p|p]; try lia.
  unfold toString. simpl.
  destruct (Pos.to_uint p); simpl; discriminate.
Qed.

(** The code a registration draws, after the salt of the password hash. *)
Lemma registerUser_run (body : register_body) (password : string) (w : world) :
  reg_password body = Some password ->
  faults (FindOne Users) = false ->
  faults (FindOne Admins) = false ->
  faults (Save Approvals) = false ->
  ~ in_users (reg_email body) (db w) ->
  ~ in_admins (reg_email body) (db w) ->
  exists (n r_pw r_otp : Z),
    let salt_pw := bcrypt_genSalt 10 r_pw in
    let salt_otp := bcrypt_genSalt 10 r_otp in
    100000 <= n <= 999998
    /\ registerUser body w
       = (Ok tt,
          with_res (mkRes 201 (Some (201, registered_reply (reg_email body))))
            (with_console
               (console w ++ [otp_log_line (reg_email body) (toString n)])
               (with_db
                  (mkStore (users (db w)) (admins (db w))
                           (approvals (db w)
                            ++ [registered_record body password w n salt_pw salt_otp]))
                  (with_entropy (tl (tl (tl (entropy w)))) w)))).
Proof.
  intros Hpw Hfu Hfa Hsave Hnu Hna.
  apply (find_email_absent User.email) in Hnu.
  apply (find_email_absent Admin.email) in Hna.
  exists (100000 + hd 0 (tl (entropy w)) mod (999999 - 100000)).
  exists (hd 0 (entropy w)).
  exists (hd 0 (tl (tl (entropy w)))).
  assert (Hr : 0 <= hd 0 (tl (entropy w)) mod (999999 - 100000) < 999999 - 100000)
    by (apply Z.mod_pos_bound; lia).
  cbv zeta. split; [lia|].
  unfold registerUser, sendOtpToEmail. unfold_prims.
  rewrite Hfu. simpl. rewrite Hnu, Hfa. simpl. rewrite Hna. simpl.
  rewrite Hpw. simpl. rewrite Hsave. simpl.
  set (a0 := Approval.mk _ _ _ _ _ _ _ None).
  rewrite (upsert_fresh Approval._id a0 (approvals (db w)) eq_refl).
  rewrite (upsert_last Approval._id a0 _ (approvals (db w))).
  - reflexivity.
  - intros x Hin. pose proof (fresh_id_above Approval._id _ x Hin) as Hlt.
    subst a0. simpl. lia.
  - reflexivity.
Qed.

(** X21: what a registration stores. For a request with a password, the new
    pending record holds the bcrypt hash of the submitted password, not the
    password, and the hash of a six-digit code that expires five minutes
    later; the code itself goes to the console, and no mail is sent. *)
Theorem registerUser_record (body : register_body) (password : string) (w : world) :
  reg_password body = Some password ->
  faults (FindOne Users) = false ->
  faults (FindOne Admins) = false ->
  faults (Save Approvals) = false ->
  ~ in_users (reg_email body) (db w) ->
  ~ in_admins (reg_email body) (db w) ->
  exists (n : Z) (salt_pw salt_otp : string) (a : Approval.t),
    let w' := snd (registerUser body w) in
    100000 <= n <= 999998
    /\ approvals (db w') = (approvals (db w) ++ [a])%list
    /\ Approval.password a = bcrypt_hash password salt_pw
    /\ Approval.otp a
       = Some (mkOtp (bcrypt_hash (toString n) salt_otp) (now w + 300000))
    /\ console w' = (console w ++ [otp_log_line (reg_email body) (toString n)])%list
    /\ outbox w' = outbox w.
Proof.
  intros Hpw Hfu Hfa Hsave Hnu Hna.
  destruct (registerUser_run body password w Hpw Hfu Hfa Hsave Hnu Hna)
    as (n & r_pw & r_otp & Hn & Hrun).
  exists n, (bcrypt_genSalt 10 r_pw), (bcrypt_genSalt 10 r_otp),
    (registered_record body password w n (bcrypt_genSalt 10 r_pw) (bcrypt_genSalt 10 r_otp)).
  rewrite Hrun. simpl. repeat split; try reflexivity; lia.
Qed.

Lemma find_app_last {A : Type} (f : A -> bool) (l : list A) (a : A) :
  find f l = None -> f a = true -> find f (l ++ [a]) = Some a.
Proof.
  intros Hnone Ha. induction l as [|x r IH]; simpl in *.
  - now rewrite Ha.
  - destruct (f x); [discriminate|auto].
Qed.

(** X22: registration and verification fit together. For a request with a
    password and an email no collection holds yet, the code that
    registerUser logs is accepted by
    verifyUserOtp for that email until five minutes after the registration:
    the answer is 200 and the stored record is verified. This holds provided
    bcrypt.compare accepts a string against its own hash under a salt of
    bcrypt.genSalt(10) and such hashes are not empty. *)
Theorem register_then_verify (body : register_body) (password : string) (w : world) :
  reg_password body = Some password ->
  faults (FindOne Users) = false ->
  faults (FindOne Admins) = false ->
  faults (FindOne Approvals) = false ->
  faults (Save Approvals) = false ->
  ~ in_users (reg_email body) (db w) ->
  ~ in_admins (reg_email body) (db w) ->
  ~ in_approvals (reg_email body) (db w) ->
  reg_email body <> "" ->
  (forall s r, bcrypt_compare s (bcrypt_hash s (bcrypt_genSalt 10 r)) = true) ->
  (forall s r, bcrypt_hash s (bcrypt_genSalt 10 r) <> "") ->
  exists (OTP : string) (a : Approval.t),
    let w1 := snd (registerUser body w) in
    console w1 = (console w ++ [otp_log_line (reg_email body) OTP])%list
    /\ pending_by_email (reg_email body) (db w1) = Some a
    /\ Approval.isVerified a = false
    /\ forall w2, db w2 = db w1 -> now w2 <= now w + 300000 ->
         let r := verifyUserOtp (Some (reg_email body)) (Some OTP) w2 in
         fst r = Ok tt
         /\ sent (res (snd r)) = Some (200, verified_reply)
         /\ pending_by_id (Approval._id a) (db (snd r)) = Some (verified_approval a).
Proof.
  intros Hpw Hfu Hfa Hfp Hsave Hnu Hna Hnp Hmail Hcmp Hne.
  destruct (registerUser_run body password w Hpw Hfu Hfa Hsave Hnu Hna)
    as (n & r_pw & r_otp & Hn & Hrun).
  set (salt_pw := bcrypt_genSalt 10 r_pw) in *.
  assert (Hsalt : exists salt_otp, salt_otp = bcrypt_genSalt 10 r_otp) by eauto.
  destruct Hsalt as [salt_otp Hsalt]. rewrite <- Hsalt in Hrun.
  exists (toString n), (registered_record body password w n salt_pw salt_otp).
  rewrite Hrun. simpl.
  apply (find_email_absent Approval.email) in Hnp.
  assert (Hfound : pending_by_email (reg_email body)
                     (mkStore (users (db w)) (admins (db w))
                              (approvals (db w)
                               ++ [registered_record body password w n salt_pw salt_otp]))
                   = Some (registered_record body password w n salt_pw salt_otp)).
  { unfold pending_by_email. simpl. apply find_app_last; [exact Hnp|].
    simpl. apply String.eqb_refl. }
  split; [reflexivity|]. split; [exact Hfound|]. split; [reflexivity|].
  intros w2 Hdb Hin.
  assert (Hcode : toString n <> "") by (apply toString_nonempty; lia).
  apply String.eqb_neq in Hcode. apply String.eqb_neq in Hmail.
  unfold pending_by_email in Hfound.
  unfold verifyUserOtp, truthy. rewrite Hmail, Hcode. simpl.
  unfold Approval_findOne, verifyOTP. unfold_prims.
  rewrite Hfp. simpl. rewrite Hdb. rewrite Hfound. simpl.
  rewrite Hsave.
  assert (Hh : String.eqb (bcrypt_hash (toString n) salt_otp) "" = false)
    by (rewrite Hsalt; apply String.eqb_neq; apply Hne).
  assert (Hc : bcrypt_compare (toString n) (bcrypt_hash (toString n) salt_otp) = true)
    by (rewrite Hsalt; apply Hcmp).
  destruct (String.eqb (toString n) "1"); simpl.
  - repeat split.
    apply (find_upsert_same Approval._id
             (verified_approval (registered_record body password w n salt_pw salt_otp))).
  - unfold no_otp_pending, otp_expiresAt, otp_code. simpl. rewrite Hh.
    destruct (Z.gtb_spec (now w2) (now w + 300000)); [lia|].
    rewrite Hc. simpl.
    repeat split.
    apply (find_upsert_same Approval._id
             (verified_approval (registered_record body password w n salt_pw salt_otp))).
Qed.

(** ** getPendingUsers *)

Lemma getPendingUsers_run (w : world) :
  faults (FindOne Approvals) = false ->
  getPendingUsers w = (Ok (pending_listing (db w)), w).
Proof.
  intros Hf. unfold getPendingUsers, Approval_find_status. unfold_prims.
  now rewrite Hf.
Qed.

Lemma without_id_absent (id : ObjectId) (l : list Approval.t) :
  (forall y, In y l -> Approval._id y <> id) ->
  without_id id (map select_without_password
                     (filter (fun a => String.eqb (Approval.status a) "Pending") l))
  = map select_without_password
        (filter (fun a => String.eqb (Approval.status a) "Pending") l).
Proof.
  unfold without_id. induction l as [|x r IH]; simpl; intros Hall; [reflexivity|].
  assert (Hr : forall y, In y r -> Approval._id y <> id) by (intros; apply Hall; auto).
  destruct (String.eqb (Approval.status x) "Pending"); simpl; [|now apply IH].
  assert (Hx : N.eqb (Approval._id x) id = false)
    by (apply N.eqb_neq; apply Hall; auto).
  rewrite Hx. simpl. f_equal. now apply IH.
Qed.

Lemma listing_after_upsert (p' : Approval.t) (l : list Approval.t) :
  NoDup (map Approval._id l) ->
  Approval.status p' <> "Pending" ->
  map select_without_password
      (filter (fun a => String.eqb (Approval.status a) "Pending")
              (upsert Approval._id p' l))
  = without_id (Approval._id p')
      (map select_without_password
           (filter (fun a => String.eqb (Approval.status a) "Pending") l)).
Proof.
  intros Hnd Hst. apply String.eqb_neq in Hst.
  induction l as [|x r IH]; simpl.
  - now rewrite Hst.
  - inversion Hnd as [|? ? Hnotin Hnd']; subst.
    destruct (N.eqb (Approval._id x) (Approval._id p')) eqn:E; simpl.
    + rewrite Hst. apply N.eqb_eq in E.
      assert (Hr : forall y, In y r -> Approval._id y <> Approval._id p').
      { intros y Hy Heq. apply Hnotin. rewrite E, <- Heq. now apply in_map. }
      destruct (String.eqb (Approval.status x) "Pending"); simpl.
      * unfold without_id at 1. simpl. rewrite E, N.eqb_refl. simpl.
        symmetry. now apply without_id_absent.
      * symmetry. now apply without_id_absent.
    + destruct (String.eqb (Approval.status x) "Pending"); simpl.
      * unfold without_id at 1. simpl. rewrite E. simpl. f_equal.
        now apply IH.
      * now apply IH.
Qed.

Lemma listing_after_delete (id : ObjectId) (l : list Approval.t) :
  map select_without_password
      (filter (fun a => String.eqb (Approval.status a) "Pending")
              (filter (fun a => negb (N.eqb (Approval._id a) id)) l))
  = without_id id
      (map select_without_password
           (filter (fun a => String.eqb (Approval.status a) "Pending") l)).
Proof.
  unfold without_id. induction l as [|x r IH]; simpl; [reflexivity|].
  destruct (N.eqb (Approval._id x) id) eqn:E; simpl.
  - destruct (String.eqb (Approval.status x) "Pending"); simpl; [|exact IH].
    rewrite E. simpl. exact IH.
  - destruct (String.eqb (Approval.status x) "Pending"); simpl; [|exact IH].
    rewrite E. simpl. now f_equal.
Qed.

(** X23: an approved record leaves the admin's pending list. With unique
    ObjectIds, the list getPendingUsers answers with after a committed
    approval is the list from before without the entry of the approved id;
    the other entries stay, in their order. *)
Theorem approved_record_is_unlisted (id : ObjectId) (w w2 : world) (p : Approval.t) :
  NoDup (map Approval._id (approvals (db w))) ->
  faults (FindOne Approvals) = false ->
  transaction_succeeds id w p ->
  db w2 = db (snd (approveUser id w)) ->
  getPendingUsers w = (Ok (pending_listing (db w)), w)
  /\ getPendingUsers w2 = (Ok (without_id id (pending_listing (db w))), w2).
Proof.
  intros Hnd Hf Htx Hdb.
  split; [now apply getPendingUsers_run|].
  rewrite (getPendingUsers_run w2 Hf). f_equal. f_equal.
  destruct (approveUser_commits id w p Htx) as (_ & Hdb1 & _).
  simpl in Hdb1. rewrite Hdb, Hdb1.
  unfold pending_listing, committed_store. simpl.
  destruct Htx as (_ & Hfind & _).
  pose proof (find_some _ _ Hfind) as [_ Hid]. apply N.eqb_eq in Hid. subst id.
  apply (listing_after_upsert (Approval.set_status "Accepted" p)); [exact Hnd|].
  simpl. discriminate.
Qed.

(** X24: a rejected record leaves the admin's pending list: after a
    rejection that went through, getPendingUsers answers with the list from
    before without the entry of the rejected id. *)
Theorem rejected_record_is_unlisted (id : ObjectId) (reason : option string)
        (w w2 : world) (p : Approval.t) :
  faults (FindById Approvals) = false ->
  faults (FindOne Approvals) = false ->
  faults Mail = false ->
  faults (Delete Approvals) = false ->
  pending_by_id id (db w) = Some p ->
  truthy reason = true ->
  db w2 = db (snd (rejectUser id reason w)) ->
  getPendingUsers w2 = (Ok (without_id id (pending_listing (db w))), w2).
Proof.
  unfold pending_by_id. intros Hf Hfo Hmail Hdel Hp Hreason Hdb.
  rewrite (getPendingUsers_run w2 Hfo). f_equal. f_equal.
  rewrite Hdb. unfold rejectUser. unfold_prims.
  rewrite Hf. simpl. rewrite Hp, Hreason. simpl. rewrite Hmail. simpl.
  rewrite Hdel. simpl.
  unfold pending_listing. simpl. apply listing_after_delete.
Qed.

(** X25: a registration is listed as pending at once, before its email is
    verified: after a successful registerUser (the request carrying a
    password) the list getPendingUsers answers with is the list from before
    followed by one unverified entry with the submitted name, email and
    pincode. *)
Theorem registration_is_listed (body : register_body) (password : string)
        (w w2 : world) :
  reg_password body = Some password ->
  faults (FindOne Users) = false ->
  faults (FindOne Admins) = false ->
  faults (FindOne Approvals) = false ->
  faults (Save Approvals) = false ->
  ~ in_users (reg_email body) (db w) ->
  ~ in_admins (reg_email body) (db w) ->
  db w2 = db (snd (registerUser body w)) ->
  exists v : pending_view,
    getPendingUsers w2 = (Ok (pending_listing (db w) ++ [v])%list, w2)
    /\ view_name v = reg_name body
    /\ view_email v = reg_email body
    /\ view_pincode v = reg_pincode body
    /\ view_status v = "Pending"
    /\ view_isVerified v = false.
Proof.
  intros Hpw Hfu Hfa Hfp Hsave Hnu Hna Hdb.
  destruct (registerUser_run body password w Hpw Hfu Hfa Hsave Hnu Hna)
    as (n & r_pw & r_otp & _ & Hrun).
  rewrite Hrun in Hdb. simpl in Hdb.
  exists (select_without_password
            (registered_record body password w n (bcrypt_genSalt 10 r_pw)
                               (bcrypt_genSalt 10 r_otp))).
  split; [|repeat split].
  rewrite (getPendingUsers_run w2 Hfp). f_equal. f_equal.
  rewrite Hdb. unfold pending_listing. simpl.
  rewrite filter_app, map_app. reflexivity.
Qed.

End Properties.

(** * The theorems at concrete requests *)

Import Demo.

Lemma approveUser_all_or_nothing_witness :
  @faults env_status_write_fails (Save Approvals) = true
  /\ db (snd (@approveUser env_status_write_fails 1%N w_verified)) = db w_verified.
Proof.
  split; [reflexivity|].
  apply (proj1 (@approveUser_all_or_nothing env_status_write_fails 1%N w_verified)).
  right. left. reflexivity.
Defined.

Lemma verifyOTP_bypass_witness :
  @faults env (Save Approvals) = false
  /\ @verifyOTP env (ApprovalDoc alice_pending) "1" w_pending_late
     = (Ok (verified (ApprovalDoc alice_pending)),
        with_db (store_save (verified (ApprovalDoc alice_pending)) store_pending)
                w_pending_late).
Proof.
  split; [reflexivity|].
  exact (proj1 (@verifyOTP_bypass env (ApprovalDoc alice_pending) w_pending_late
                                  eq_refl)).
Defined.

Lemma verifyOTP_checks_witness :
  "482913" <> "1"
  /\ @verifyOTP env (ApprovalDoc alice_pending) "482913" w_pending_late
     = (Throw (Error "OTP expired"), w_pending_late)
  /\ @verifyOTP env (ApprovalDoc alice_pending) "482913" w_pending
     = (Ok (verified (ApprovalDoc alice_pending)),
        with_db (store_save (verified (ApprovalDoc alice_pending)) store_pending)
                w_pending).
Proof.
  assert (Hcode : "482913" <> "1") by discriminate.
  split; [exact Hcode|]. split.
  - apply (proj1 (proj2 (@verifyOTP_checks env (ApprovalDoc alice_pending)
                                           "482913" w_pending_late Hcode))).
    + reflexivity.
    + reflexivity.
  - apply (proj2 (proj2 (proj2 (@verifyOTP_checks env (ApprovalDoc alice_pending)
                                                   "482913" w_pending Hcode)))).
    + reflexivity.
    + discriminate.
    + reflexivity.
    + reflexivity.
Defined.

Lemma checkOtp_read_only_witness :
  snd (@checkOtp env (ApprovalDoc alice_pending) "482913" w_pending) = w_pending
  /\ fst (@checkOtp env (ApprovalDoc alice_pending) "482913" w_pending) = Ok true
  /\ fst (@checkOtp env (ApprovalDoc alice_pending) "482913" w_pending_late)
     = Throw (Error "OTP expired").
Proof.
  assert (Hcode : "482913" <> "1") by discriminate.
  split; [|split].
  - apply (@checkOtp_read_only env (ApprovalDoc alice_pending) "482913" w_pending).
  - apply (proj2 (proj2 (proj2 (proj2
             (@checkOtp_read_only env (ApprovalDoc alice_pending) "482913" w_pending))
             Hcode))).
    + reflexivity.
    + discriminate.
  - apply (proj1 (proj2 (proj2 (proj2
             (@checkOtp_read_only env (ApprovalDoc alice_pending) "482913"
                                  w_pending_late))
             Hcode))).
    + reflexivity.
    + reflexivity.
Defined.

Lemma sendOtpToEmail_never_999999_witness :
  @faults env (Save Approvals) = false
  /\ exists (n : Z) (saved : document),
      100000 <= n <= 999998
      /\ fst (@sendOtpToEmail env (ApprovalDoc alice_verified) default_subject
                              (with_entropy [899998; 7] w_verified))
         = Ok (toString n, saved).
Proof.
  split; [reflexivity|].
  destruct (@sendOtpToEmail_never_999999 env (ApprovalDoc alice_verified)
              default_subject (with_entropy [899998; 7] w_verified) eq_refl)
    as (n & s & Hrange & _ & Hrun & _).
  exists n. eexists. split; [exact Hrange|exact Hrun].
Defined.

(** The largest draw gives 999998, and the next one wraps to 100000. *)
Example sendOtpToEmail_largest_code :
  fst (@sendOtpToEmail env (ApprovalDoc alice_verified) default_subject
                       (with_entropy [899998; 7] w_verified))
  = Ok ("999998",
        ApprovalDoc (Approval.set_otp (Some (mkOtp "$2a$s$999998" 301000))
                                      alice_verified))
  /\ fst (@randomInt 100000 999999 (with_entropy [899999] w_verified))
     = Ok 100000.
Proof. split; reflexivity. Qed.

(** Register, verify with the bypass code, approve: the pending record ends
    up Accepted and one User record exists. *)
Example onboarding_scenario :
  let w1 := snd (@registerUser env alice w_empty) in
  let w2 := snd (@verifyUserOtp env (Some "a@x.com") (Some "1")
                                (with_res fresh_response w1)) in
  let w3 := snd (@approveUser env 1%N (with_res fresh_response w2)) in
  sent (res w1) = Some (201, registered_reply "a@x.com")
  /\ map Approval.isVerified (approvals (db w2)) = [true]
  /\ sent (res w3) = Some (200, approved_reply "VOTER-1")
  /\ map Approval.status (approvals (db w3)) = ["Accepted"]
  /\ map User.email (users (db w3)) = ["a@x.com"].
Proof. repeat split; reflexivity. Qed.

Lemma rejectUser_without_reason_witness :
  truthy None = false
  /\ @faults env (FindById Approvals) = false
  /\ db (snd (@rejectUser env 1%N None w_verified)) = db w_verified
  /\ @rejectUser env 1%N None w_verified
     = (Throw (Error "Rejection reason is required"),
        with_res (mkRes 400 None) w_verified).
Proof.
  split; [reflexivity|]. split; [reflexivity|].
  destruct (@rejectUser_without_reason env 1%N None w_verified eq_refl)
    as [Hdb Hrest].
  split; [exact Hdb|].
  exact (proj1 (proj1 (Hrest eq_refl) alice_verified eq_refl)).
Defined.

(** C6, as stated, fails where the id names no pending record: the call is
    refused with 404 "Pending user not found" and not with the
    missing-reason error. *)
Lemma rejectUser_unknown_id_counterexample :
  truthy (Some "") = false
  /\ @rejectUser env 7%N (Some "") w_verified
     = (Throw (Error "Pending user not found"),
        with_res (mkRes 404 None) w_verified)
  /\ fst (@rejectUser env 7%N (Some "") w_verified)
     <> Throw (Error "Rejection reason is required").
Proof.
  split; [reflexivity|]. split; [reflexivity|].
  vm_compute. discriminate.
Qed.

Lemma notification_failure_asymmetry_witness :
  @faults env_mail_fails Mail = true
  /\ sent (res (snd (@approveUser env_mail_fails 1%N w_verified)))
     = Some (200, approved_reply "VOTER-1")
  /\ @rejectUser env_mail_fails 1%N (Some "incomplete documents") w_verified
     = (Throw (Error "sendNotificationEmail failed"), w_verified).
Proof.
  split; [reflexivity|].
  destruct (@notification_failure_asymmetry env_mail_fails eq_refl)
    as [Happrove Hreject].
  split.
  - assert (Htx : @transaction_succeeds env_mail_fails 1%N w_verified alice_verified)
      by (repeat split; reflexivity).
    exact (proj1 (proj2 (Happrove 1%N w_verified alice_verified Htx eq_refl))).
  - exact (proj1 (Hreject 1%N (Some "incomplete documents") w_verified
                          alice_verified eq_refl eq_refl eq_refl)).
Defined.

Lemma updateUserDetails_spec_witness :
  lookup_either 1%N (db w_verified) = Some (ApprovalDoc alice_verified)
  /\ fst (@updateUserDetails env 1%N (Some "Alicia") w_verified) = Ok tt
  /\ lookup_either 1%N (db (snd (@updateUserDetails env 1%N (Some "Alicia") w_verified)))
     = Some (doc_set_name "Alicia" (ApprovalDoc alice_verified))
  /\ db (snd (@updateUserDetails env 1%N None w_verified)) = db w_verified
  /\ @updateUserDetails env 2%N (Some "Alicia") w_verified
     = (Throw (Error "User not found"), with_res (mkRes 404 None) w_verified)
  /\ @updateUserDetails env_status_write_fails 1%N None w_verified
     = (Throw (Error "Approval save failed"), w_verified).
Proof.
  split; [reflexivity|].
  split; [|split; [|split; [|split]]].
  - destruct (@updateUserDetails_spec env 1%N (Some "Alicia") w_verified
                eq_refl eq_refl eq_refl)
      as (_ & Hname & _).
    exact (proj1 (Hname (ApprovalDoc alice_verified) eq_refl eq_refl eq_refl eq_refl)).
  - destruct (@updateUserDetails_spec env 1%N (Some "Alicia") w_verified
                eq_refl eq_refl eq_refl)
      as (_ & Hname & _).
    exact (proj1 (proj2 (proj2
             (Hname (ApprovalDoc alice_verified) eq_refl eq_refl eq_refl eq_refl)))).
  - destruct (@updateUserDetails_spec env 1%N None w_verified
                eq_refl eq_refl eq_refl)
      as (_ & _ & Hnone & _).
    exact (proj1 (proj2
             (Hnone (ApprovalDoc alice_verified) eq_refl eq_refl eq_refl eq_refl))).
  - destruct (@updateUserDetails_spec env 2%N (Some "Alicia") w_verified
                eq_refl eq_refl eq_refl)
      as (Habsent & _).
    exact (Habsent eq_refl).
  - destruct (@updateUserDetails_spec env_status_write_fails 1%N None w_verified
                eq_refl eq_refl eq_refl)
      as (_ & _ & _ & Hrefused).
    exact (Hrefused (ApprovalDoc alice_verified) eq_refl eq_refl).
Defined.

Lemma approveUser_copies_fields_witness :
  sent (res (snd (@approveUser env 1%N w_verified)))
  = Some (200, approved_reply "VOTER-1")
  /\ exists (p : Approval.t) (u : User.t),
      find (fun a => N.eqb (Approval._id a) 1%N) (approvals (db w_verified)) = Some p
      /\ find (fun a => N.eqb (Approval._id a) 1%N)
              (approvals (db (snd (@approveUser env 1%N w_verified))))
         = Some (Approval.set_status "Accepted" p)
      /\ users (db (snd (@approveUser env 1%N w_verified))) = [u]
      /\ User.email u = Approval.email p.
Proof.
  split; [reflexivity|].
  destruct (@approveUser_copies_fields env 1%N w_verified 200 "VOTER-1" eq_refl)
    as (p & u & Hfind & Hfind' & _ & _ & _ & _ & _ & _ & _ & _ & _ & Husers
        & _ & Hemail & _).
  exists p, u. repeat split; assumption.
Defined.

Lemma registerUser_duplicate_check_witness :
  @faults env (FindOne Users) = false
  /\ @faults env (FindOne Admins) = false
  /\ @registerUser env root w_admin
     = (Throw (Error "Email already exists"),
        with_res (mkRes 400 (Some (400, duplicate_reply))) w_admin)
  /\ sent (res (snd (@registerUser env alice w_empty)))
     = Some (201, registered_reply "a@x.com")
  /\ exists e, @registerUser env carol_without_password w_empty = (Throw e, w_empty).
Proof.
  split; [reflexivity|]. split; [reflexivity|]. split; [|split].
  - destruct (@registerUser_duplicate_check env root w_admin eq_refl eq_refl)
      as [Hdup _].
    apply Hdup. right. exists (Admin.mk 1%N "root@x.com").
    split; [now left|reflexivity].
  - destruct (@registerUser_duplicate_check env alice w_empty eq_refl eq_refl)
      as (_ & Hnew & _).
    apply (Hnew "pw123").
    + reflexivity.
    + intros (x & [] & _).
    + intros (x & [] & _).
    + intros (x & [] & _).
    + reflexivity.
  - destruct (@registerUser_duplicate_check env carol_without_password w_empty
                eq_refl eq_refl)
      as (_ & _ & Hnone).
    apply Hnone.
    + reflexivity.
    + intros (x & [] & _).
    + intros (x & [] & _).
Defined.

(** C2, as stated, fails on both sides. An email held by the Admin
    collection only is refused with 400 although neither the User nor the
    Approval collection has it; an email held by a pending record only is not
    refused with 400: the call goes on to write a second pending record, and
    answers 201 when the store accepts the write or fails with the store's
    error when it does not. *)
Lemma registerUser_claim_counterexample :
  (~ in_users "root@x.com" store_admin
   /\ ~ in_approvals "root@x.com" store_admin
   /\ @registerUser env root w_admin
      = (Throw (Error "Email already exists"),
         with_res (mkRes 400 (Some (400, duplicate_reply))) w_admin))
  /\ (in_approvals "a@x.com" store_pending
      /\ fst (@registerUser env alice w_pending) = Ok tt
      /\ sent (res (snd (@registerUser env alice w_pending)))
         = Some (201, registered_reply "a@x.com")
      /\ map Approval.email (approvals (db (snd (@registerUser env alice w_pending))))
         = ["a@x.com"; "a@x.com"]
      /\ @registerUser env_status_write_fails alice w_pending
         = (Throw (Error "Approval save failed"), w_pending)).
Proof.
  split.
  - split; [intros (x & [] & _)|]. split; [intros (x & [] & _)|]. reflexivity.
  - split.
    + exists alice_pending. split; [now left|reflexivity].
    + repeat split; reflexivity.
Qed.

(** * The further properties at concrete requests *)

Lemma toy_bcrypt_accepts (s : string) (r : Z) :
  @bcrypt_compare env s (@bcrypt_hash env s (@bcrypt_genSalt env 10 r)) = true.
Proof. apply String.eqb_refl. Qed.

Lemma toy_bcrypt_nonempty (s : string) (r : Z) :
  @bcrypt_hash env s (@bcrypt_genSalt env 10 r) <> "".
Proof. discriminate. Qed.

Lemma alice_ids_unique : NoDup (map Approval._id [alice_pending]).
Proof. constructor; [simpl; tauto|constructor]. Qed.

Lemma alice_transaction_succeeds :
  @transaction_succeeds env 1%N w_verified alice_verified.
Proof. repeat split; reflexivity. Qed.

Lemma issued_code_verifies_witness :
  @faults env (Save Approvals) = false
  /\ exists (OTP : string) (issued : document),
      fst (@sendOtpToEmail env (ApprovalDoc alice_verified) default_subject w_verified)
      = Ok (OTP, issued)
      /\ fst (@verifyOTP env issued OTP w_verified)
         = Ok (verified (ApprovalDoc alice_verified)).
Proof.
  split; [reflexivity|].
  destruct (@issued_code_verifies env (ApprovalDoc alice_verified) default_subject
              w_verified eq_refl toy_bcrypt_accepts toy_bcrypt_nonempty)
    as (OTP & issued & Hrun & Hin & _).
  exists OTP, issued. split; [exact Hrun|].
  rewrite (Hin w_verified); [reflexivity|].
  vm_compute. discriminate.
Defined.

Lemma verified_code_is_spent_witness :
  @verifyOTP env (ApprovalDoc alice_pending) "482913" w_pending
  = (Ok (verified (ApprovalDoc alice_pending)),
     with_db (store_save (verified (ApprovalDoc alice_pending)) store_pending) w_pending)
  /\ @verifyOTP env (verified (ApprovalDoc alice_pending)) "482913" w_pending
     = (Throw (Error "No OTP pending for this user"), w_pending).
Proof.
  split; [reflexivity|].
  apply (@verified_code_is_spent env (ApprovalDoc alice_pending) _ "482913" "482913"
           w_pending _ w_pending eq_refl).
  discriminate.
Defined.

Lemma checkOtp_predicts_verifyOTP_witness :
  fst (@checkOtp env (ApprovalDoc alice_pending) "000000" w_pending) = Ok false
  /\ @verifyOTP env (ApprovalDoc alice_pending) "000000" w_pending
     = (Throw (Error "OTP incorrect"), w_pending).
Proof.
  split; [reflexivity|].
  apply (proj2 (@checkOtp_predicts_verifyOTP env (ApprovalDoc alice_pending) "000000"
                  w_pending eq_refl)).
  reflexivity.
Defined.

Lemma sendOtpToEmail_only_logs_witness :
  outbox (snd (@sendOtpToEmail env (ApprovalDoc alice_verified) default_subject
                               w_verified)) = []
  /\ exists (OTP : string) (issued : document),
      fst (@sendOtpToEmail env (ApprovalDoc alice_verified) default_subject w_verified)
      = Ok (OTP, issued)
      /\ console (snd (@sendOtpToEmail env (ApprovalDoc alice_verified) default_subject
                                       w_verified))
         = ["[OTP] Sending OTP to a@x.com: " ++ OTP].
Proof.
  destruct (@sendOtpToEmail_only_logs env (ApprovalDoc alice_verified) default_subject
              w_verified) as [Hout Hlog].
  split; [exact Hout|]. exact (Hlog eq_refl).
Defined.

Lemma verifyUserOtp_refusals_witness :
  @verifyUserOtp env None (Some "1") w_pending
  = (Throw (Error "Email and OTP are required"), with_res (mkRes 400 None) w_pending)
  /\ @verifyUserOtp env (Some "nobody@x.com") (Some "1") w_pending
     = (Throw (Error "Pending user not found"), with_res (mkRes 404 None) w_pending).
Proof.
  split.
  - apply (proj1 (@verifyUserOtp_refusals env None (Some "1") w_pending)).
    left. reflexivity.
  - apply (proj2 (@verifyUserOtp_refusals env (Some "nobody@x.com") (Some "1")
                    w_pending)); reflexivity.
Defined.

Lemma verifyUserOtp_propagates_witness :
  @verifyOTP env (ApprovalDoc alice_pending) "000000" w_pending
  = (Throw (Error "OTP incorrect"), w_pending)
  /\ @verifyUserOtp env (Some "a@x.com") (Some "000000") w_pending
     = (Throw (Error "OTP incorrect"), w_pending).
Proof.
  split; [reflexivity|].
  apply (@verifyUserOtp_propagates env (Some "a@x.com") (Some "000000") w_pending
           w_pending alice_pending (Error "OTP incorrect"));
    reflexivity.
Defined.

Lemma verifyUserOtp_success_witness :
  sent (res (snd (@verifyUserOtp env (Some "a@x.com") (Some "482913") w_pending)))
  = Some (200, verified_reply)
  /\ pending_by_id 1%N
       (db (snd (@verifyUserOtp env (Some "a@x.com") (Some "482913") w_pending)))
     = Some (verified_approval alice_pending).
Proof.
  destruct (@verifyUserOtp_success env (Some "a@x.com") (Some "482913") w_pending
              (with_db (store_save (verified (ApprovalDoc alice_pending)) store_pending)
                       w_pending)
              alice_pending (verified (ApprovalDoc alice_pending))
              eq_refl eq_refl eq_refl eq_refl eq_refl)
    as (_ & Hsent & _ & Hstored & _).
  split; assumption.
Defined.

Lemma resendOtp_after_verification_witness :
  fst (@verifyUserOtp env (Some "a@x.com") (Some "1") w_pending) = Ok tt
  /\ @resendOtp env (Some "a@x.com") w_just_verified
     = (Throw (Error "User is already verified"),
        with_res (mkRes 400 (sent (res w_just_verified))) w_just_verified).
Proof.
  split; [reflexivity|].
  apply (@resendOtp_after_verification env (Some "a@x.com") (Some "1") w_pending
           w_just_verified alice_pending alice_ids_unique);
    reflexivity.
Defined.

Lemma resendOtp_refusals_witness :
  @resendOtp env None w_pending
  = (Throw (Error "Email is required"), with_res (mkRes 400 None) w_pending)
  /\ @resendOtp env (Some "a@x.com") w_approved
     = (Throw (Error "User is not in pending status"),
        with_res (mkRes 400 (sent (res w_approved))) w_approved).
Proof.
  split.
  - apply (proj1 (@resendOtp_refusals env None w_pending)). reflexivity.
  - apply (proj1 (proj2 (proj2 (@resendOtp_refusals env (Some "a@x.com") w_approved)
                                eq_refl eq_refl))
             (Approval.set_status "Accepted" alice_verified)).
    + reflexivity.
    + discriminate.
Defined.

Lemma resendOtp_success_witness :
  exists (n : Z),
    100000 <= n <= 999998
    /\ fst (@resendOtp env (Some "a@x.com") w_pending) = Ok tt
    /\ outbox (snd (@resendOtp env (Some "a@x.com") w_pending)) = [].
Proof.
  destruct (@resendOtp_success env (Some "a@x.com") w_pending alice_pending
              eq_refl eq_refl eq_refl eq_refl eq_refl eq_refl)
    as (n & s & Hn & Hok & _ & _ & _ & _ & _ & Hout).
  exists n. repeat split; try assumption; apply Hn.
Defined.

Lemma approveUser_refusals_witness :
  @approveUser env 7%N w_verified
  = (Ok tt,
     with_res (mkRes 404 (Some (404, [("message", "Pending user not found")])))
              (with_session idle w_verified))
  /\ @approveUser env 1%N w_pending
     = (Ok tt,
        with_res (mkRes 400 (Some (400, [("message", "User has not verified their OTP")])))
                 (with_session idle w_pending)).
Proof.
  split.
  - apply (proj1 (@approveUser_refusals env 7%N w_verified eq_refl)). reflexivity.
  - apply (proj2 (@approveUser_refusals env 1%N w_pending eq_refl) alice_pending);
      reflexivity.
Defined.

Lemma approveUser_failure_answer_witness :
  @faults env_crypto_fails CryptoFields = true
  /\ exists o,
      @faults env_crypto_fails o = true
      /\ res (snd (@approveUser env_crypto_fails 1%N w_verified))
         = mkRes 500 (Some (500, failure_reply o))
      /\ db (snd (@approveUser env_crypto_fails 1%N w_verified)) = db w_verified.
Proof.
  split; [reflexivity|].
  destruct (@approveUser_failure_answer env_crypto_fails 1%N w_verified alice_verified)
    as (o & _ & Ho & _ & Hres & Hdb & _).
  - right. split; [reflexivity|]. split; [reflexivity|]. left. reflexivity.
  - exists o. repeat split; assumption.
Defined.

Lemma approval_mail_only_after_commit_witness :
  outbox (snd (@approveUser env 1%N w_verified)) <> outbox w_verified
  /\ exists p,
      db (snd (@approveUser env 1%N w_verified)) = @committed_store env w_verified p.
Proof.
  assert (Hout : outbox (snd (@approveUser env 1%N w_verified)) <> outbox w_verified)
    by (vm_compute; discriminate).
  split; [exact Hout|].
  destruct (@approval_mail_only_after_commit env 1%N w_verified Hout)
    as (p & _ & Hdb & _).
  exists p. exact Hdb.
Defined.

Lemma approveUser_twice_witness :
  users (db (snd (@approveUser env 1%N w_approved)))
  = (users (db w_verified)
     ++ [@approved_user env w_verified alice_verified;
         @approved_user env w_approved (Approval.set_status "Accepted" alice_verified)])%list.
Proof.
  exact (proj1 (proj2 (proj2 (proj2
           (@approveUser_twice env 1%N w_verified w_approved alice_verified
                               alice_transaction_succeeds eq_refl))))).
Defined.

Lemma rejectUser_success_witness :
  fst (@rejectUser env 1%N (Some "incomplete documents") w_verified) = Ok tt
  /\ pending_by_id 1%N
       (db (snd (@rejectUser env 1%N (Some "incomplete documents") w_verified)))
     = None.
Proof.
  destruct (@rejectUser_success env 1%N (Some "incomplete documents") w_verified
              alice_verified eq_refl eq_refl eq_refl eq_refl eq_refl)
    as (Hok & _ & _ & Hgone & _).
  split; assumption.
Defined.

Lemma rejectUser_delete_failure_witness :
  @faults env_delete_fails (Delete Approvals) = true
  /\ pending_by_id 1%N
       (db (snd (@rejectUser env_delete_fails 1%N (Some "incomplete documents")
                             w_verified)))
     = Some alice_verified.
Proof.
  split; [reflexivity|].
  exact (proj2 (@rejectUser_delete_failure env_delete_fails 1%N
                  (Some "incomplete documents") w_verified alice_verified
                  eq_refl eq_refl eq_refl eq_refl eq_refl)).
Defined.

Lemma new_records_overwrite_nothing_witness :
  pending_by_id 1%N (db w_pending) = Some alice_pending
  /\ List.length (approvals (db (snd (@registerUser env root w_pending)))) = 2%nat
  /\ pending_by_id 1%N (db (snd (@registerUser env root w_pending)))
     = Some alice_pending.
Proof.
  split; [reflexivity|]. split; [reflexivity|].
  exact (proj1 (@new_records_overwrite_nothing env w_pending) root 1%N alice_pending
               eq_refl).
Defined.

Lemma updateUserDetails_renames_only_target_witness :
  lookup_either 1%N (db (snd (@updateUserDetails env 1%N (Some "Alicia") w_verified)))
  = Some (doc_set_name "Alicia" (ApprovalDoc alice_verified)).
Proof.
  exact (proj1 (@updateUserDetails_renames_only_target env 1%N (Some "Alicia")
                  w_verified (ApprovalDoc alice_verified)
                  eq_refl eq_refl eq_refl eq_refl eq_refl eq_refl)).
Defined.

Lemma updateUserDetails_mail_failure_witness :
  @faults env_mail_fails Mail = true
  /\ @updateUserDetails env_mail_fails 1%N (Some "Alicia") w_verified
     = (Throw (Error "sendNotificationEmail failed"),
        with_db (store_save (doc_set_name "Alicia" (ApprovalDoc alice_verified))
                            store_verified)
                w_verified).
Proof.
  split; [reflexivity|].
  exact (proj1 (@updateUserDetails_mail_failure env_mail_fails 1%N (Some "Alicia")
                  w_verified (ApprovalDoc alice_verified)
                  eq_refl eq_refl eq_refl eq_refl eq_refl eq_refl eq_refl)).
Defined.

Lemma store_empty_has_no_email (e : string) :
  ~ in_users e empty_store /\ ~ in_admins e empty_store /\ ~ in_approvals e empty_store.
Proof. repeat split; intros (x & [] & _). Qed.

Lemma registerUser_record_witness :
  exists (n : Z) (salt_pw : string) (a : Approval.t),
    100000 <= n <= 999998
    /\ approvals (db (snd (@registerUser env alice w_empty))) = [a]
    /\ Approval.password a = @bcrypt_hash env "pw123" salt_pw.
Proof.
  destruct (@registerUser_record env alice "pw123" w_empty eq_refl
              eq_refl eq_refl eq_refl
              (proj1 (store_empty_has_no_email "a@x.com"))
              (proj1 (proj2 (store_empty_has_no_email "a@x.com"))))
    as (n & salt_pw & salt_otp & a & Hn & Happ & Hpw & _).
  exists n, salt_pw, a. repeat split; try assumption; apply Hn.
Defined.

Lemma register_then_verify_witness :
  exists (OTP : string),
    console (snd (@registerUser env alice w_empty))
    = ["[OTP] Sending OTP to a@x.com: " ++ OTP]
    /\ fst (@verifyUserOtp env (Some "a@x.com") (Some OTP)
                           (snd (@registerUser env alice w_empty)))
       = Ok tt.
Proof.
  destruct (@register_then_verify env alice "pw123" w_empty eq_refl
              eq_refl eq_refl eq_refl eq_refl
              (proj1 (store_empty_has_no_email "a@x.com"))
              (proj1 (proj2 (store_empty_has_no_email "a@x.com")))
              (proj2 (proj2 (store_empty_has_no_email "a@x.com"))))
    as (OTP & a & Hlog & _ & _ & Hverify).
  - discriminate.
  - exact toy_bcrypt_accepts.
  - exact toy_bcrypt_nonempty.
  - exists OTP. split; [exact Hlog|].
    apply (Hverify (snd (@registerUser env alice w_empty)) eq_refl).
    vm_compute. discriminate.
Defined.

Lemma approved_record_is_unlisted_witness :
  fst (@getPendingUsers env w_verified)
  = Ok [select_without_password alice_verified]
  /\ fst (@getPendingUsers env w_approved) = Ok [].
Proof.
  destruct (@approved_record_is_unlisted env 1%N w_verified w_approved alice_verified)
    as [Hbefore Hafter].
  - constructor; [simpl; tauto|constructor].
  - reflexivity.
  - exact alice_transaction_succeeds.
  - reflexivity.
  - rewrite Hbefore, Hafter. split; reflexivity.
Defined.

Lemma rejected_record_is_unlisted_witness :
  fst (@getPendingUsers env
         (snd (@rejectUser env 1%N (Some "incomplete documents") w_verified)))
  = Ok [].
Proof.
  rewrite (@rejected_record_is_unlisted env 1%N (Some "incomplete documents")
             w_verified _ alice_verified
             eq_refl eq_refl eq_refl eq_refl eq_refl eq_refl eq_refl).
  reflexivity.
Defined.

Lemma registration_is_listed_witness :
  exists v : pending_view,
    fst (@getPendingUsers env (snd (@registerUser env alice w_empty))) = Ok [v]
    /\ view_email v = "a@x.com"
    /\ view_isVerified v = false.
Proof.
  destruct (@registration_is_listed env alice "pw123" w_empty
              (snd (@registerUser env alice w_empty))
              eq_refl eq_refl eq_refl eq_refl eq_refl
              (proj1 (store_empty_has_no_email "a@x.com"))
              (proj1 (proj2 (store_empty_has_no_email "a@x.com")))
              eq_refl)
    as (v & Hrun & _ & Hmail & _ & _ & Hver).
  exists v. rewrite Hrun. repeat split; assumption.
Defined.
